(** * The All-Hardware CI transport: a shallow embedding of
      [python/tvm/contrib/allhw/ci_api_server.py]

    The handler class [AllHWCIAPIHandlerImpl] adapts a batch task service
    (submit firmware and input, poll for status, fetch the output) to the
    byte-stream transport of the project API: [flash], [open_transport],
    [close_transport], [read_transport] and [write_transport].

    The object's attributes become the record [session]; every method is a
    function from the session (and, for the two methods that talk to the
    service, the state of the outside world) to the session after the call
    and the call's outcome.  A Python exception does not roll the object
    back, so a raising call also yields the session as it was mutated up to
    the [raise].

    Modelling decisions, all of them about code outside this file:
    - [requests.get] and [requests.post] are blocking calls that yield a
      status code and a body; the answers of the service are read from a
      script indexed by the number of the request ([remote]);
    - [response.json()], [bytes(output, 'ascii')] and [base64.b64decode]
      are represented by what they yield: a parsed object or a failure,
      decoded bytes or a failure;
    - [time.monotonic()] is a clock counting milliseconds; a request takes
      the time the script says and [time.sleep(0.5)] takes 500 ms;
    - the temporary file and the firmware file are always there to be
      opened, and [print] is left out. *)

From Stdlib Require Import ZArith Lia.
From stdpp Require Import base option list strings gmap.

(** ** Values *)

(** The values found in an options dictionary and in a JSON object. *)
Inductive pyval : Type :=
| PyNone
| PyStr (s : string)
| PyInt (z : Z).

Definition bytes : Type := list Byte.byte.

Definition is_none (v : pyval) : bool :=
  match v with PyNone => true | _ => false end.

(** [options.get(key)]: [None] when the key is absent. *)
Definition dict_get (d : gmap string pyval) (key : string) : pyval :=
  default PyNone (d !! key).

(** Python's normalisation of one bound of a slice [l[lo:hi]] over a
    sequence of [len] items: a negative bound counts from the end, and the
    result is clamped to [0..len]. *)
Definition slice_bound (len : nat) (i : Z) : nat :=
  if (i <? 0)%Z then Z.to_nat (Z.max 0 (i + Z.of_nat len))
  else Nat.min (Z.to_nat i) len.

(** [l[lo:hi]] *)
Definition py_slice (l : bytes) (lo hi : Z) : bytes :=
  let a := slice_bound (length l) lo in
  let b := slice_bound (length l) hi in
  take (b - a) (drop a l).

(** ** Errors and outcomes *)

Inductive error : Type :=
| TransportClosedError
| IoTimeoutError
| CITransportUsageError.

(** What a call does: return a value, raise, or still be inside its
    [while True] loop when the iterations granted to it are used up. *)
Inductive outcome (A : Type) : Type :=
| Returned (a : A)
| Raised (e : error)
| OutOfFuel.
Arguments Returned {A} a.
Arguments Raised {A} e.
Arguments OutOfFuel {A}.

(** ** The handler object *)

Record session : Type := mkSession {
  url : pyval;
  api_key : pyval;
  task_timeout : pyval;
  rate : pyval;
  log : pyval;
  options : option (gmap string pyval);
  task_id : option string;
  closed : bool;
  readpos : nat;
  readbuf : bytes;
  finished : bool;
  firmware : option string
}.

Definition set_url (v : pyval) (s : session) : session :=
  mkSession v (api_key s) (task_timeout s) (rate s) (log s) (options s)
            (task_id s) (closed s) (readpos s) (readbuf s) (finished s) (firmware s).
Definition set_api_key (v : pyval) (s : session) : session :=
  mkSession (url s) v (task_timeout s) (rate s) (log s) (options s)
            (task_id s) (closed s) (readpos s) (readbuf s) (finished s) (firmware s).
Definition set_task_timeout (v : pyval) (s : session) : session :=
  mkSession (url s) (api_key s) v (rate s) (log s) (options s)
            (task_id s) (closed s) (readpos s) (readbuf s) (finished s) (firmware s).
Definition set_rate (v : pyval) (s : session) : session :=
  mkSession (url s) (api_key s) (task_timeout s) v (log s) (options s)
            (task_id s) (closed s) (readpos s) (readbuf s) (finished s) (firmware s).
Definition set_log (v : pyval) (s : session) : session :=
  mkSession (url s) (api_key s) (task_timeout s) (rate s) v (options s)
            (task_id s) (closed s) (readpos s) (readbuf s) (finished s) (firmware s).
Definition set_options (o : option (gmap string pyval)) (s : session) : session :=
  mkSession (url s) (api_key s) (task_timeout s) (rate s) (log s) o
            (task_id s) (closed s) (readpos s) (readbuf s) (finished s) (firmware s).
Definition set_task_id (t : option string) (s : session) : session :=
  mkSession (url s) (api_key s) (task_timeout s) (rate s) (log s) (options s)
            t (closed s) (readpos s) (readbuf s) (finished s) (firmware s).
Definition set_closed (b : bool) (s : session) : session :=
  mkSession (url s) (api_key s) (task_timeout s) (rate s) (log s) (options s)
            (task_id s) b (readpos s) (readbuf s) (finished s) (firmware s).
Definition set_readpos (p : nat) (s : session) : session :=
  mkSession (url s) (api_key s) (task_timeout s) (rate s) (log s) (options s)
            (task_id s) (closed s) p (readbuf s) (finished s) (firmware s).
Definition set_readbuf (b : bytes) (s : session) : session :=
  mkSession (url s) (api_key s) (task_timeout s) (rate s) (log s) (options s)
            (task_id s) (closed s) (readpos s) b (finished s) (firmware s).
Definition set_finished (b : bool) (s : session) : session :=
  mkSession (url s) (api_key s) (task_timeout s) (rate s) (log s) (options s)
            (task_id s) (closed s) (readpos s) (readbuf s) b (firmware s).
Definition set_firmware (f : option string) (s : session) : session :=
  mkSession (url s) (api_key s) (task_timeout s) (rate s) (log s) (options s)
            (task_id s) (closed s) (readpos s) (readbuf s) (finished s) f.

(** One [if not options.get(key) is None: self.field = options[key]]. *)
Definition override (d : gmap string pyval) (key : string)
    (set : pyval -> session -> session) (s : session) : session :=
  if is_none (dict_get d key) then s else set (dict_get d key) s.

(** [_set_options] *)
Definition _set_options (o : option (gmap string pyval)) (s : session) : session :=
  match o with
  | None => s
  | Some d =>
      let s := set_options (Some d) s in
      let s := override d "url" set_url s in
      let s := override d "api_key" set_api_key s in
      let s := override d "task_timeout" set_task_timeout s in
      let s := override d "rate" set_rate s in
      override d "log" set_log s
  end.

(** [__init__] *)
Definition init (o : option (gmap string pyval)) : session :=
  let s := mkSession (PyStr "https://cloud.all-hw.com/ci/usertask")
                     (PyStr "85282cff-fc94-4ed1-8633-6c74637e95e0")
                     (PyInt 20) (PyInt 115200) (PyInt 0) None
                     None true 0 [] false None in
  let s := _set_options o s in
  let s := set_task_id None s in
  let s := set_closed true s in
  let s := set_readpos 0 s in
  let s := set_readbuf [] s in
  let s := set_finished false s in
  set_firmware None s.

(** ** Lifecycle *)

(** [flash]; [cwd] is what [os.getcwd()] yields. *)
Definition flash (cwd : string) (o : option (gmap string pyval)) (s : session)
    : session * outcome unit :=
  if negb (closed s) then (s, Raised CITransportUsageError)
  else
    let s := set_firmware (Some (cwd +:+ "/build/zephyr/zephyr.hex")) s in
    let s := _set_options o s in
    let s := set_readbuf [] s in
    let s := set_finished false s in
    let s := set_closed true s in
    (s, Returned tt).

(** [server.TransportTimeouts] *)
Record TransportTimeouts : Type := mkTransportTimeouts {
  session_start_retry_timeout_sec : Z;
  session_start_timeout_sec : Z;
  session_established_timeout_sec : Z
}.

(** [open_transport] *)
Definition open_transport (o : option (gmap string pyval)) (s : session)
    : session * outcome TransportTimeouts :=
  if negb (closed s) then (s, Raised CITransportUsageError)
  else
    let s := _set_options o s in
    let s := set_readpos 0 s in
    let s := set_readbuf [] s in
    let s := set_finished false s in
    let s := set_closed false s in
    (s, Returned (mkTransportTimeouts 0 0 0)).

(** [close_transport] *)
Definition close_transport (s : session) : session * outcome unit :=
  let s := set_closed true s in
  let s := set_readbuf [] s in
  let s := set_task_id None s in
  (s, Returned tt).

(** ** The outside world *)

(** The [output] field of a status reply, as the code gets to see it:
    [json['output']] raises [KeyError], is [None], is something that
    [bytes(output, 'ascii')] or [base64.b64decode] rejects, or decodes. *)
Inductive output_field : Type :=
| OutMissing
| OutNull
| OutUndecodable
| OutDecoded (b : bytes).

(** The body of a status reply: [response.json()] raises, or yields an
    object; [status] is [None] when [json['status']] raises. *)
Inductive json_body : Type :=
| Unparseable
| JsonObject (status : option pyval) (output : output_field).

Record get_response : Type := mkGetResponse {
  get_status_code : Z;
  get_json : json_body
}.

Record post_response : Type := mkPostResponse {
  post_status_code : Z;
  post_text : string
}.

(** [requests.get(url=self.url, params={'id': self.task_id})] *)
Record get_request : Type := mkGetRequest {
  get_url : pyval;
  get_id : option string
}.

(** [requests.post(url=self.url, params=params, data=None, files=files)] *)
Record post_request : Type := mkPostRequest {
  post_url : pyval;
  post_version : string;
  post_rate : pyval;
  post_log : pyval;
  post_timeout : pyval;
  post_key : pyval;
  post_binary : string;
  post_firmware : option string;
  post_input : bytes
}.

(** The service: what the k-th status request and the k-th submission
    are answered, and how long each takes (milliseconds). *)
Record remote : Type := mkRemote {
  get_reply : nat -> get_request -> get_response;
  get_time : nat -> Z;
  post_reply : nat -> post_request -> post_response;
  post_time : nat -> Z
}.

(** The clock and the number of requests made so far. *)
Record world : Type := mkWorld {
  now : Z;
  gets : nat;
  posts : nat
}.

(** [time.sleep(0.5)] *)
Definition sleep (w : world) : world :=
  mkWorld (now w + 500) (gets w) (posts w).

Definition after_get (E : remote) (w : world) : world :=
  mkWorld (now w + get_time E (gets w)) (S (gets w)) (posts w).

Definition after_post (E : remote) (w : world) : world :=
  mkWorld (now w + post_time E (posts w)) (gets w) (S (posts w)).

(** [end_time = None if timeout_sec is None else time.monotonic() + timeout_sec] *)
Definition deadline (timeout_sec : option Z) (w : world) : option Z :=
  match timeout_sec with
  | None => None
  | Some t => Some (now w + t)%Z
  end.

(** [(not end_time is None) and (end_time < time.monotonic())], the clock
    reading [clock]. *)
Definition expired (end_time : option Z) (clock : Z) : bool :=
  match end_time with
  | None => false
  | Some e => (e <? clock)%Z
  end.

(** ** Reading *)

(** [json['status'] == 'finished'] *)
Definition is_finished_status (v : pyval) : bool :=
  match v with
  | PyStr x => String.eqb x "finished"
  | _ => false
  end.

(** The body of the [try] in [read_transport]; any exception in it is
    swallowed, keeping the assignments made before it. *)
Definition absorb (j : json_body) (s : session) : session :=
  match j with
  | Unparseable => s
  | JsonObject None _ => s
  | JsonObject (Some st) out =>
      let s := if is_finished_status st then set_finished true s else s in
      match out with
      | OutDecoded b => set_readbuf b s
      | _ => s
      end
  end.

(** The first [if] of the loop body: refresh the buffer content. *)
Definition refresh (E : remote) (w : world) (s : session) : world * session :=
  if (length (readbuf s) <=? readpos s) && negb (finished s) then
    let response := get_reply E (gets w) (mkGetRequest (url s) (task_id s)) in
    let w := after_get E w in
    if (get_status_code response =? 200)%Z then (w, absorb (get_json response) s)
    else (w, s)
  else (w, s).

(** The second [if]: get unread content from the buffer. *)
Definition consume (n : Z) (s : session) (ret : bytes) : session * bytes :=
  if readpos s <? length (readbuf s) then
    let portion :=
      py_slice (readbuf s) (Z.of_nat (readpos s))
               (Z.of_nat (readpos s) + n - Z.of_nat (length ret)) in
    (set_readpos (readpos s + length portion) s, ret ++ portion)
  else (s, ret).

(** [ret[0:n] if len(ret) > n else ret] *)
Definition result_of (n : Z) (ret : bytes) : bytes :=
  if (n <? Z.of_nat (length ret))%Z then py_slice ret 0 n else ret.

(** The [while True] loop of [read_transport], [fuel] iterations of it. *)
Fixpoint read_loop (fuel : nat) (E : remote) (n : Z) (end_time : option Z)
    (w : world) (s : session) (ret : bytes) : world * session * outcome bytes :=
  match fuel with
  | O => (w, s, OutOfFuel)
  | S fuel =>
      let '(w, s) := refresh E w s in
      let '(s, ret) := consume n s ret in
      if (n <=? Z.of_nat (length ret))%Z then (w, s, Returned (result_of n ret))
      else if finished s then
        if (length ret =? 0)%nat then (w, s, Raised IoTimeoutError)
        else (w, s, Returned (result_of n ret))
      else if expired end_time (now w) then (w, s, Raised IoTimeoutError)
      else read_loop fuel E n end_time (sleep w) s ret
  end.

(** [read_transport] *)
Definition read_transport (fuel : nat) (E : remote) (n : Z) (timeout_sec : option Z)
    (w : world) (s : session) : world * session * outcome bytes :=
  if closed s then (w, s, Raised TransportClosedError)
  else
    match task_id s with
    | None => (w, s, Raised CITransportUsageError)
    | Some _ => read_loop fuel E n (deadline timeout_sec w) w s []
    end.

(** ** Writing *)

(** The request one submission attempt sends. *)
Definition submission (data : bytes) (s : session) : post_request :=
  mkPostRequest (url s) "V3" (rate s) (log s) (task_timeout s) (api_key s)
                "true" (firmware s) data.

(** The [while True] loop of [write_transport], [fuel] iterations of it. *)
Fixpoint write_loop (fuel : nat) (E : remote) (data : bytes) (end_time : option Z)
    (w : world) (s : session) : world * session * outcome unit :=
  match fuel with
  | O => (w, s, OutOfFuel)
  | S fuel =>
      let response := post_reply E (posts w) (submission data s) in
      let w := after_post E w in
      if (post_status_code response =? 200)%Z then
        (w, set_task_id (Some (post_text response)) s, Returned tt)
      else if expired end_time (now w) then (w, s, Raised IoTimeoutError)
      else write_loop fuel E data end_time (sleep w) s
  end.

(** The time the [k] submissions numbered [from], [from + 1], ... take. *)
Fixpoint spent (E : remote) (from k : nat) : Z :=
  match k with
  | O => 0
  | S k => post_time E from + spent E (S from) k
  end.

(** The clock when the answer to attempt [j] (the first being attempt 0)
    of a [write_transport] entered in world [w] arrives: [j + 1] requests
    and [j] sleeps later. *)
Definition attempt_clock (E : remote) (w : world) (j : nat) : Z :=
  now w + spent E (posts w) (S j) + 500 * Z.of_nat j.

(** [if not self.task_id is None: self.close_transport(); self.open_transport(self.options)] *)
Definition reopen (s : session) : session * outcome unit :=
  match task_id s with
  | None => (s, Returned tt)
  | Some _ =>
      let '(s, _) := close_transport s in
      match open_transport (options s) s with
      | (s, Returned _) => (s, Returned tt)
      | (s, Raised e) => (s, Raised e)
      | (s, OutOfFuel) => (s, OutOfFuel)
      end
  end.

(** The session [write_transport] submits from when it finds a task id:
    closed, then opened again with the options last given. *)
Definition reopened (s : session) : session :=
  fst (open_transport (options s) (fst (close_transport s))).

(** The first [m] attempts of a [write_transport] entered in world [w]
    with session [s] were refused, each before the deadline had passed. *)
Definition attempts_failed (E : remote) (data : bytes) (end_time : option Z)
    (w : world) (s : session) (m : nat) : Prop :=
  forall j, j < m ->
    post_status_code (post_reply E (posts w + j) (submission data s)) <> 200%Z
    /\ expired end_time (attempt_clock E w j) = false.

(** [self.closed or self.firmware is None] *)
Definition unusable (s : session) : bool :=
  closed s || match firmware s with None => true | Some _ => false end.

(** [write_transport] *)
Definition write_transport (fuel : nat) (E : remote) (data : bytes)
    (timeout_sec : option Z) (w : world) (s : session)
    : world * session * outcome unit :=
  if unusable s then (w, s, Raised TransportClosedError)
  else
    match reopen s with
    | (s, Returned _) => write_loop fuel E data (deadline timeout_sec w) w s
    | (s, Raised e) => (w, s, Raised e)
    | (s, OutOfFuel) => (w, s, OutOfFuel)
    end.

(** ** Sequences of calls *)

Inductive call : Type :=
| Flash (cwd : string) (o : option (gmap string pyval))
| OpenTransport (o : option (gmap string pyval))
| CloseTransport
| ReadTransport (n : Z) (timeout_sec : option Z)
| WriteTransport (data : bytes) (timeout_sec : option Z).

(** One call of a method, against the service [E], its loop granted [fuel]
    iterations; the outcome is dropped, the world and the object remain. *)
Definition run (fuel : nat) (E : remote) (c : call) (w : world) (s : session)
    : world * session :=
  match c with
  | Flash cwd o => (w, fst (flash cwd o s))
  | OpenTransport o => (w, fst (open_transport o s))
  | CloseTransport => (w, fst (close_transport s))
  | ReadTransport n t => fst (read_transport fuel E n t w s)
  | WriteTransport data t => fst (write_transport fuel E data t w s)
  end.

Fixpoint exec (cs : list (nat * remote * call)) (w : world) (s : session)
    : world * session :=
  match cs with
  | [] => (w, s)
  | (fuel, E, c) :: cs => let '(w, s) := run fuel E c w s in exec cs w s
  end.

(** Every [read_transport] of the sequence is made against a service
    that satisfies [P]. *)
Fixpoint admissible (P : remote -> world -> session -> Prop)
    (cs : list (nat * remote * call)) (w : world) (s : session) : Prop :=
  match cs with
  | [] => True
  | (fuel, E, c) :: cs =>
      match c with ReadTransport _ _ => P E w s | _ => True end
      /\ admissible P cs (fst (run fuel E c w s)) (snd (run fuel E c w s))
  end.

(** What a status reply puts into the read buffer, if anything. *)
Definition snapshot (r : get_response) : option bytes :=
  if (get_status_code r =? 200)%Z then
    match get_json r with
    | JsonObject (Some _) (OutDecoded b) => Some b
    | _ => None
    end
  else None.

Definition polled (E : remote) (s : session) (k : nat) : option bytes :=
  snapshot (get_reply E k (mkGetRequest (url s) (task_id s))).

(** A service whose output only grows: from the request the world is at,
    no snapshot is shorter than the buffer the object holds, nor than an
    earlier snapshot. *)
Definition grow_only (E : remote) (w : world) (s : session) : Prop :=
  (forall i b, gets w <= i -> polled E s i = Some b ->
     length (readbuf s) <= length b) /\
  (forall i j bi bj, gets w <= i -> i <= j ->
     polled E s i = Some bi -> polled E s j = Some bj ->
     length bi <= length bj).

(** Any service at all. *)
Definition any_remote (E : remote) (w : world) (s : session) : Prop := True.

(** The states an object can be in: created by [__init__], then any
    sequence of calls, a [read_transport] being made against a service
    that satisfies [P]. *)
Inductive reachable (P : remote -> world -> session -> Prop)
    : world -> session -> Prop :=
| reach_init w o : reachable P w (init o)
| reach_flash w s cwd o :
    reachable P w s -> reachable P w (fst (flash cwd o s))
| reach_open w s o :
    reachable P w s -> reachable P w (fst (open_transport o s))
| reach_close w s :
    reachable P w s -> reachable P w (fst (close_transport s))
| reach_read w s fuel E n t :
    reachable P w s -> P E w s ->
    reachable P (fst (fst (read_transport fuel E n t w s)))
                (snd (fst (read_transport fuel E n t w s)))
| reach_write w s fuel E data t :
    reachable P w s ->
    reachable P (fst (fst (write_transport fuel E data t w s)))
                (snd (fst (write_transport fuel E data t w s))).

(** ** Concrete services and runs *)

Module Scenario.

(** A service that answers the k-th status request with [g k] and the
    k-th submission with [p k], each after one millisecond. *)
Definition script (g : nat -> get_response) (p : nat -> post_response) : remote :=
  mkRemote (fun k _ => g k) (fun _ => 1%Z) (fun k _ => p k) (fun _ => 1%Z).

Definition accepted (tid : string) : post_response := mkPostResponse 200 tid.
Definition refused : post_response := mkPostResponse 503 "".

Definition report (status : string) (out : output_field) : get_response :=
  mkGetResponse 200 (JsonObject (Some (PyStr status)) out).

Definition abc : bytes := [Byte.x61; Byte.x62; Byte.x63].

(** Accepts every submission as ["task-1"], answers no status request. *)
Definition accepting : remote :=
  script (fun _ => mkGetResponse 404 Unparseable) (fun _ => accepted "task-1").

(** Accepts the second submission as ["task-2"]. *)
Definition accepting_again : remote :=
  script (fun _ => mkGetResponse 404 Unparseable) (fun _ => accepted "task-2").

(** Refuses every submission. *)
Definition refusing : remote :=
  script (fun _ => mkGetResponse 404 Unparseable) (fun _ => refused).

(** Reports the task finished with output [abc]. *)
Definition done_abc : remote :=
  script (fun _ => report "finished" (OutDecoded abc)) (fun _ => refused).

(** Reports the task running, with output [abc] so far. *)
Definition running_abc : remote :=
  script (fun _ => report "running" (OutDecoded abc)) (fun _ => refused).

(** Reports the task running, with the shorter output [a]. *)
Definition running_a : remote :=
  script (fun _ => report "running" (OutDecoded [Byte.x61])) (fun _ => refused).

(** Reports the task finished with output [abc] and two more bytes. *)
Definition done_abcde : remote :=
  script (fun _ => report "finished" (OutDecoded (abc ++ [Byte.x64; Byte.x65])))
         (fun _ => refused).

(** Reports the task finished, without output. *)
Definition done_silent : remote :=
  script (fun _ => report "finished" OutNull) (fun _ => refused).

Definition dawn : world := mkWorld 0 0 0.

(** [flash], [open_transport], [write_transport]: an open transport with
    the task ["task-1"]. *)
Definition started : world * session :=
  exec [(1, accepting, Flash "/proj" None);
        (1, accepting, OpenTransport None);
        (1, accepting, WriteTransport abc None)] dawn (init None).

(** ... then one byte is read and the transport closed. *)
Definition read_then_closed : world * session :=
  exec [(1, done_abc, ReadTransport 1 None);
        (1, done_abc, CloseTransport)] (fst started) (snd started).

(** ... or three bytes are read, and the next poll yields one byte. *)
Definition shrunk : world * session :=
  exec [(1, running_abc, ReadTransport 3 None);
        (1, running_a, ReadTransport 1 (Some 0%Z))] (fst started) (snd started).

(** ... or ten bytes are asked for with a deadline that passes while
    the task, still running, has put out three. *)
Definition timed_out : world * session :=
  exec [(1, running_abc, ReadTransport 10 (Some 0%Z))] (fst started) (snd started).

(** ... or everything is read, the task being finished. *)
Definition drained : world * session :=
  exec [(1, done_abc, ReadTransport 3 None)] (fst started) (snd started).

End Scenario.

(** ** Notions for the properties of the whole object *)

(** The value of a field after [_set_options] has looked [key] up in [d]:
    the entry of [d], or the old value when there is none or it is [None]. *)
Definition pick (d : gmap string pyval) (key : string) (old : pyval) : pyval :=
  if is_none (dict_get d key) then old else dict_get d key.

(** [s'] has the configuration of [s]: the five tunables, the options
    last given and the firmware path. *)
Definition same_config (s s' : session) : Prop :=
  url s' = url s /\ api_key s' = api_key s /\ task_timeout s' = task_timeout s
  /\ rate s' = rate s /\ log s' = log s /\ options s' = options s
  /\ firmware s' = firmware s.

(** The tunables already are what the options last given make them. *)
Definition settled (s : session) : Prop :=
  match options s with
  | None => True
  | Some d =>
      url s = pick d "url" (url s) /\ api_key s = pick d "api_key" (api_key s)
      /\ task_timeout s = pick d "task_timeout" (task_timeout s)
      /\ rate s = pick d "rate" (rate s) /\ log s = pick d "log" (log s)
  end.

(** The output [O] of the task is what every snapshot is a beginning of:
    the buffer held, and whatever a status request from now on yields. *)
Definition prefix_consistent (E : remote) (w : world) (s : session) (O : bytes)
    : Prop :=
  readbuf s `prefix_of` O
  /\ forall i b, gets w <= i -> polled E s i = Some b -> b `prefix_of` O.

(** No call of the sequence is a [flash]. *)
Definition is_flash (c : call) : bool :=
  match c with Flash _ _ => true | _ => false end.

Definition flashless (cs : list (nat * remote * call)) : Prop :=
  Forall (fun c => is_flash (snd c) = false) cs.

(** A status reply from which the loop takes the task to be finished. *)
Definition reported_finished (r : get_response) : bool :=
  (get_status_code r =? 200)%Z
  && match get_json r with
     | JsonObject (Some st) _ => is_finished_status st
     | _ => false
     end.

(** More concrete runs. *)
Module Further.

(** After [Scenario.started], one byte of [abc] is read: two are left in
    the buffer. *)
Definition one_read : world * session :=
  exec [(1, Scenario.done_abc, ReadTransport 1 None)]
       (fst Scenario.started) (snd Scenario.started).

(** A new object is opened, written to and closed, never flashed. *)
Definition unflashed : list (nat * remote * call) :=
  [(1, Scenario.accepting, OpenTransport None);
   (1, Scenario.accepting, WriteTransport Scenario.abc None);
   (1, Scenario.accepting, CloseTransport);
   (1, Scenario.accepting, OpenTransport None)].


End Further.

(** * Properties *)

(** ** Slices *)

Lemma slice_bound_le (len : nat) (i : Z) : slice_bound len i <= len.
Proof. unfold slice_bound. destruct (i <? 0)%Z eqn:Hi; lia. Qed.

Lemma slice_bound_nat (len p : nat) : slice_bound len (Z.of_nat p) = Nat.min p len.
Proof.
  unfold slice_bound. destruct (Z.of_nat p <? 0)%Z eqn:Hi; [lia|].
  now rewrite Nat2Z.id.
Qed.

Lemma py_slice_length (l : bytes) (lo hi : Z) :
  length (py_slice l lo hi)
  = slice_bound (length l) hi - slice_bound (length l) lo.
Proof.
  unfold py_slice. rewrite length_take, length_drop.
  pose proof (slice_bound_le (length l) hi). lia.
Qed.

Lemma py_slice_empty (l : bytes) (i : Z) : py_slice l i i = [].
Proof. unfold py_slice. now rewrite Nat.sub_diag. Qed.

(** ** [close_transport] *)

Lemma close_transport_fields (s : session) :
  closed (fst (close_transport s)) = true
  /\ readbuf (fst (close_transport s)) = []
  /\ task_id (fst (close_transport s)) = None.
Proof. now cbn. Qed.

Lemma close_transport_twice (s : session) :
  fst (close_transport (fst (close_transport s))) = fst (close_transport s).
Proof. reflexivity. Qed.

(** C7. [close_transport] is idempotent: from any state one call marks the
    object closed, empties the read buffer and clears the task id, and any
    number of further consecutive calls leave the whole object as the first
    call left it. *)
Theorem close_transport_idempotent (s : session) (k : nat) :
  closed (fst (close_transport s)) = true
  /\ readbuf (fst (close_transport s)) = []
  /\ task_id (fst (close_transport s)) = None
  /\ Nat.iter k (fun x => fst (close_transport x)) (fst (close_transport s))
     = fst (close_transport s).
Proof.
  repeat split.
  induction k as [|k IH]; [reflexivity|].
  cbn [Nat.iter nat_rect]. unfold Nat.iter in IH. rewrite IH.
  apply close_transport_twice.
Qed.

(** ** [read_transport]: the guards *)

(** C9. A [read_transport] on a closed transport raises
    [TransportClosedError]; on an open transport without a task id it
    raises [CITransportUsageError]; either way no status request is made
    and neither the object nor the world changes. *)
Theorem read_transport_guards (fuel : nat) (E : remote) (n : Z)
    (timeout_sec : option Z) (w : world) (s : session) :
  (closed s = true ->
     read_transport fuel E n timeout_sec w s = (w, s, Raised TransportClosedError))
  /\ (closed s = false -> task_id s = None ->
     read_transport fuel E n timeout_sec w s = (w, s, Raised CITransportUsageError)).
Proof.
  unfold read_transport. split.
  - intros ->. reflexivity.
  - intros -> ->. reflexivity.
Qed.

(** ** [read_transport]: the loop *)

Lemma refresh_gets (E : remote) (w : world) (s : session) :
  gets (fst (refresh E w s)) <= S (gets w).
Proof.
  unfold refresh.
  destruct ((length (readbuf s) <=? readpos s) && negb (finished s)); [|cbn; lia].
  destruct (get_status_code _ =? 200)%Z; cbn; lia.
Qed.

Lemma consume_zero (s : session) : consume 0 s [] = (s, []).
Proof.
  unfold consume. destruct (readpos s <? length (readbuf s)); [|reflexivity].
  cbn [length]. replace (Z.of_nat (readpos s) + 0 - Z.of_nat 0)%Z
    with (Z.of_nat (readpos s)) by lia.
  rewrite py_slice_empty. cbn [length app].
  rewrite Nat.add_0_r. now destruct s.
Qed.

(** C10. [read_transport(0, timeout_sec)] on an open transport with a
    task id returns the empty byte string whatever the state of the task,
    the timeout and the replies of the service, after at most one status
    request. *)
Theorem read_transport_zero (fuel : nat) (E : remote) (timeout_sec : option Z)
    (w : world) (s : session) (tid : string) :
  closed s = false -> task_id s = Some tid ->
  read_transport (S fuel) E 0 timeout_sec w s
  = (fst (refresh E w s), snd (refresh E w s), Returned [])
  /\ gets (fst (refresh E w s)) <= S (gets w).
Proof.
  intros Hopen Htid. split; [|apply refresh_gets].
  unfold read_transport. rewrite Hopen, Htid. cbn [read_loop].
  destruct (refresh E w s) as [w1 s1]. rewrite consume_zero. reflexivity.
Qed.

Lemma result_of_length (n : Z) (ret : bytes) :
  (0 <= n)%Z -> (Z.of_nat (length (result_of n ret)) <= n)%Z.
Proof.
  intros Hn. unfold result_of.
  destruct (n <? Z.of_nat (length ret))%Z eqn:Hlt; [|lia].
  rewrite py_slice_length. unfold slice_bound.
  destruct (n <? 0)%Z eqn:Hneg; [lia|]. cbn. lia.
Qed.

Lemma result_of_full (n : Z) (ret : bytes) :
  (0 <= n)%Z -> (n <= Z.of_nat (length ret))%Z ->
  Z.of_nat (length (result_of n ret)) = n.
Proof.
  intros Hn Hle. unfold result_of.
  destruct (n <? Z.of_nat (length ret))%Z eqn:Hlt; [|lia].
  rewrite py_slice_length. unfold slice_bound.
  destruct (n <? 0)%Z eqn:Hneg; [lia|]. cbn. lia.
Qed.

Lemma read_loop_length (fuel : nat) (E : remote) (n : Z) (end_time : option Z) :
  (0 <= n)%Z ->
  forall w s ret w' s' r,
    read_loop fuel E n end_time w s ret = (w', s', Returned r) ->
    (Z.of_nat (length r) <= n)%Z
    /\ (finished s' = false -> Z.of_nat (length r) = n).
Proof.
  intros Hn. induction fuel as [|fuel IH]; intros w s ret w' s' r; cbn [read_loop].
  - discriminate.
  - destruct (refresh E w s) as [w1 s1].
    destruct (consume n s1 ret) as [s2 ret2].
    destruct (n <=? Z.of_nat (length ret2))%Z eqn:Hfull.
    + intros [= <- <- <-]. split; [now apply result_of_length|].
      intros _. apply result_of_full; lia.
    + destruct (finished s2) eqn:Hfin.
      * destruct (length ret2 =? 0); [discriminate|].
        intros [= <- <- <-]. split; [now apply result_of_length|].
        rewrite Hfin. discriminate.
      * destruct (expired end_time (now w1)); [discriminate|]. apply IH.
Qed.

(** C4. A [read_transport(n, timeout_sec)] call that returns, [n] being a
    byte count, returns at most [n] bytes, and exactly [n] unless the
    finished flag is set when it returns. *)
Theorem read_transport_length (fuel : nat) (E : remote) (n : Z)
    (timeout_sec : option Z) (w w' : world) (s s' : session) (r : bytes) :
  (0 <= n)%Z ->
  read_transport fuel E n timeout_sec w s = (w', s', Returned r) ->
  (Z.of_nat (length r) <= n)%Z
  /\ (finished s' = false -> Z.of_nat (length r) = n).
Proof.
  intros Hn. unfold read_transport.
  destruct (closed s); [discriminate|].
  destruct (task_id s); [|discriminate].
  now apply read_loop_length.
Qed.

Lemma consume_length (n : Z) (s : session) (ret : bytes) :
  (Z.of_nat (length ret) <= n)%Z ->
  (Z.of_nat (length (snd (consume n s ret))) <= n)%Z.
Proof.
  intros Hle. unfold consume.
  destruct (readpos s <? length (readbuf s)) eqn:Hunread; cbn [snd]; [|exact Hle].
  rewrite length_app, py_slice_length, slice_bound_nat. unfold slice_bound.
  destruct (Z.of_nat (readpos s) + n - Z.of_nat (length ret) <? 0)%Z eqn:Hneg; lia.
Qed.

Lemma result_of_short (n : Z) (ret : bytes) :
  (Z.of_nat (length ret) <= n)%Z -> result_of n ret = ret.
Proof.
  intros Hle. unfold result_of.
  destruct (n <? Z.of_nat (length ret))%Z eqn:Hlt; [lia|reflexivity].
Qed.

(** The iteration of the loop in which the finished flag is, or has just
    been, set ends the call. *)
Lemma read_loop_finished (fuel : nat) (E : remote) (n : Z) (end_time : option Z)
    (w : world) (s : session) (ret : bytes) :
  (Z.of_nat (length ret) < n)%Z ->
  finished (fst (consume n (snd (refresh E w s)) ret)) = true ->
  read_loop (S fuel) E n end_time w s ret
  = (fst (refresh E w s), fst (consume n (snd (refresh E w s)) ret),
     match snd (consume n (snd (refresh E w s)) ret) with
     | [] => Raised IoTimeoutError
     | b :: bs => Returned (b :: bs)
     end)
  /\ (Z.of_nat (length (snd (consume n (snd (refresh E w s)) ret))) <= n)%Z.
Proof.
  intros Hlt Hfin.
  assert (Hlen := consume_length n (snd (refresh E w s)) ret ltac:(lia)).
  split; [|exact Hlen].
  cbn [read_loop]. destruct (refresh E w s) as [w1 s1]. cbn [fst snd] in *.
  destruct (consume n s1 ret) as [s2 ret2]. cbn [fst snd] in *.
  rewrite Hfin, (result_of_short n ret2 Hlen).
  destruct ret2 as [|b bs].
  - cbn [length] in *. destruct (n <=? Z.of_nat 0)%Z eqn:Hfull; [|reflexivity].
    apply Z.leb_le in Hfull. exfalso. lia.
  - destruct (n <=? Z.of_nat (length (b :: bs)))%Z; reflexivity.
Qed.

(** ** Concrete runs *)

Example started_state :
  closed (snd Scenario.started) = false
  /\ task_id (snd Scenario.started) = Some "task-1"
  /\ firmware (snd Scenario.started) = Some "/proj/build/zephyr/zephyr.hex"
  /\ readpos (snd Scenario.started) = 0
  /\ readbuf (snd Scenario.started) = []
  /\ finished (snd Scenario.started) = false.
Proof. vm_compute. repeat split. Qed.

Example round_trip :
  snd (read_transport 1 Scenario.done_abc 3 None
         (fst Scenario.started) (snd Scenario.started))
  = Returned Scenario.abc.
Proof. vm_compute. reflexivity. Qed.

Example short_read :
  snd (read_transport 1 Scenario.done_abc 10 None
         (fst Scenario.started) (snd Scenario.started))
  = Returned Scenario.abc.
Proof. vm_compute. reflexivity. Qed.

Example zero_output_timeout :
  snd (read_transport 1 Scenario.done_silent 10 None
         (fst Scenario.started) (snd Scenario.started))
  = Raised IoTimeoutError.
Proof. vm_compute. reflexivity. Qed.

(** Outside the byte counts: Python's slices read a negative [n] from
    the end, so that [read_transport(-1, None)] takes [ab] and returns [a]. *)
Example negative_count :
  snd (read_transport 1 Scenario.done_abc (-1) None
         (fst Scenario.started) (snd Scenario.started))
  = Returned [Byte.x61].
Proof. vm_compute. reflexivity. Qed.

Example write_times_out :
  snd (write_transport 2 Scenario.refusing Scenario.abc (Some 100%Z)
         (fst Scenario.started) (snd Scenario.started))
  = Raised IoTimeoutError.
Proof. vm_compute. reflexivity. Qed.

(** ** [read_transport]: the end of the stream *)


(** ** [_set_options], [open_transport] and the implicit reopening *)

Lemma _set_options_keeps (o : option (gmap string pyval)) (s : session) :
  task_id (_set_options o s) = task_id s
  /\ closed (_set_options o s) = closed s
  /\ readpos (_set_options o s) = readpos s
  /\ readbuf (_set_options o s) = readbuf s
  /\ finished (_set_options o s) = finished s
  /\ firmware (_set_options o s) = firmware s.
Proof.
  destruct o as [d|]; [|now cbn]. unfold _set_options, override.
  destruct (is_none (dict_get d "url")), (is_none (dict_get d "api_key")),
    (is_none (dict_get d "task_timeout")), (is_none (dict_get d "rate")),
    (is_none (dict_get d "log")); now cbn.
Qed.

Lemma reopened_fields (s : session) :
  closed (reopened s) = false
  /\ task_id (reopened s) = None
  /\ readpos (reopened s) = 0
  /\ readbuf (reopened s) = []
  /\ finished (reopened s) = false
  /\ firmware (reopened s) = firmware s.
Proof.
  unfold reopened, open_transport, close_transport. cbn.
  destruct (_set_options_keeps (options s)
              (set_task_id None (set_readbuf [] (set_closed true s))))
    as (Htid & _ & _ & _ & _ & Hfw).
  repeat split; [exact Htid | exact Hfw].
Qed.

Lemma reopen_some (s : session) (tid : string) :
  task_id s = Some tid -> reopen s = (reopened s, Returned tt).
Proof. unfold reopen, reopened. intros ->. reflexivity. Qed.

Lemma reopen_none (s : session) :
  task_id s = None -> reopen s = (s, Returned tt).
Proof. unfold reopen. intros ->. reflexivity. Qed.

Lemma reopen_returns (s : session) : snd (reopen s) = Returned tt.
Proof.
  destruct (task_id s) as [tid|] eqn:Htid.
  - now rewrite (reopen_some s tid Htid).
  - now rewrite (reopen_none s Htid).
Qed.

Lemma reopen_task_id (s : session) : task_id (fst (reopen s)) = None.
Proof.
  destruct (task_id s) as [tid|] eqn:Htid.
  - rewrite (reopen_some s tid Htid). apply reopened_fields.
  - now rewrite (reopen_none s Htid).
Qed.

Lemma write_transport_loop (fuel : nat) (E : remote) (data : bytes)
    (timeout_sec : option Z) (w : world) (s : session) :
  unusable s = false ->
  write_transport fuel E data timeout_sec w s
  = write_loop fuel E data (deadline timeout_sec w) w (fst (reopen s)).
Proof.
  intros Hok. unfold write_transport. rewrite Hok.
  pose proof (reopen_returns s) as Hret.
  destruct (reopen s) as [s0 out]. cbn [fst snd] in *. now rewrite Hret.
Qed.

(** ** [write_transport]: the loop *)

Lemma write_loop_returned (fuel : nat) (E : remote) (data : bytes)
    (end_time : option Z) :
  forall w s w' s' u,
    write_loop fuel E data end_time w s = (w', s', Returned u) ->
    exists k, posts w <= k < posts w'
      /\ post_status_code (post_reply E k (submission data s)) = 200%Z
      /\ s' = set_task_id (Some (post_text (post_reply E k (submission data s)))) s.
Proof.
  induction fuel as [|fuel IH]; intros w s w' s' u; cbn [write_loop].
  - discriminate.
  - destruct (post_status_code _ =? 200)%Z eqn:Hok.
    + intros [= <- <- _]. exists (posts w). cbn. split; [lia|].
      split; [now apply Z.eqb_eq|reflexivity].
    + destruct (expired end_time _); [discriminate|].
      intros Hrun. destruct (IH _ _ _ _ _ Hrun) as (k & Hk & Hrest).
      exists k. cbn in Hk. split; [lia|exact Hrest].
Qed.

(** C5. A [write_transport] on an open transport that already has a task
    id submits from the session closed and opened again: cursor at 0,
    buffer empty, finished flag clear, no task id; a successful call
    leaves exactly that session with the id the service answered. *)
Theorem write_transport_reopens (fuel : nat) (E : remote) (data : bytes)
    (timeout_sec : option Z) (w : world) (s : session) (old : string) :
  closed s = false -> firmware s <> None -> task_id s = Some old ->
  reopen s = (fst (open_transport (options s) (fst (close_transport s))), Returned tt)
  /\ write_transport fuel E data timeout_sec w s
     = write_loop fuel E data (deadline timeout_sec w) w (reopened s)
  /\ (closed (reopened s) = false /\ task_id (reopened s) = None
      /\ readpos (reopened s) = 0 /\ readbuf (reopened s) = []
      /\ finished (reopened s) = false /\ firmware (reopened s) = firmware s)
  /\ forall w' s',
       write_transport fuel E data timeout_sec w s = (w', s', Returned tt) ->
       exists k, posts w <= k < posts w'
         /\ post_status_code (post_reply E k (submission data (reopened s))) = 200%Z
         /\ s' = set_task_id
                   (Some (post_text (post_reply E k (submission data (reopened s)))))
                   (reopened s).
Proof.
  intros Hopen Hfw Htid.
  assert (Hok : unusable s = false).
  { unfold unusable. rewrite Hopen. destruct (firmware s); [reflexivity|contradiction]. }
  assert (Hloop := write_transport_loop fuel E data timeout_sec w s Hok).
  rewrite (reopen_some s old Htid) in Hloop. cbn [fst] in Hloop.
  split; [exact (reopen_some s old Htid)|]. split; [exact Hloop|].
  split; [apply reopened_fields|].
  intros w' s' Hrun. rewrite Hloop in Hrun.
  exact (write_loop_returned _ _ _ _ _ _ _ _ _ Hrun).
Qed.

Lemma write_transport_reopens_witness :
  closed (snd Scenario.drained) = false
  /\ firmware (snd Scenario.drained) <> None
  /\ task_id (snd Scenario.drained) = Some "task-1"
  /\ task_id (snd (fst (write_transport 1 Scenario.accepting_again Scenario.abc None
                          (fst Scenario.drained) (snd Scenario.drained))))
     = Some "task-2".
Proof.
  assert (Hopen : closed (snd Scenario.drained) = false) by (vm_compute; reflexivity).
  assert (Hfw : firmware (snd Scenario.drained) <> None) by (vm_compute; discriminate).
  assert (Htid : task_id (snd Scenario.drained) = Some "task-1")
    by (vm_compute; reflexivity).
  split; [exact Hopen|]. split; [exact Hfw|]. split; [exact Htid|].
  destruct (write_transport_reopens 1 Scenario.accepting_again Scenario.abc None
              (fst Scenario.drained) (snd Scenario.drained) "task-1" Hopen Hfw Htid)
    as (_ & Hloop & _ & _).
  rewrite Hloop. vm_compute. reflexivity.
Defined.

(** ** The finished flag *)

Lemma absorb_finished (j : json_body) (s : session) :
  finished s = true -> finished (absorb j s) = true.
Proof.
  intros Hfin. destruct j as [|[st|] out]; cbn; try exact Hfin.
  destruct (is_finished_status st), out; cbn; auto.
Qed.

Lemma refresh_finished (E : remote) (w : world) (s : session) :
  finished s = true -> refresh E w s = (w, s).
Proof.
  intros Hfin. unfold refresh. rewrite Hfin.
  now rewrite andb_false_r.
Qed.

Lemma consume_finished (n : Z) (s : session) (ret : bytes) :
  finished (fst (consume n s ret)) = finished s.
Proof. unfold consume. now destruct (readpos s <? length (readbuf s)). Qed.

Lemma read_loop_finished_kept (fuel : nat) (E : remote) (n : Z)
    (end_time : option Z) :
  forall w s ret,
    finished s = true ->
    finished (snd (fst (read_loop fuel E n end_time w s ret))) = true.
Proof.
  induction fuel as [|fuel IH]; intros w s ret Hfin; cbn [read_loop].
  - exact Hfin.
  - rewrite (refresh_finished E w s Hfin).
    pose proof (consume_finished n s ret) as Hc.
    destruct (consume n s ret) as [s2 ret2]. cbn [fst] in Hc.
    rewrite Hfin in Hc.
    destruct (n <=? Z.of_nat (length ret2))%Z; [exact Hc|].
    rewrite Hc. destruct (length ret2 =? 0); exact Hc.
Qed.

Lemma write_loop_finished (fuel : nat) (E : remote) (data : bytes)
    (end_time : option Z) :
  forall w s,
    finished (snd (fst (write_loop fuel E data end_time w s))) = finished s.
Proof.
  induction fuel as [|fuel IH]; intros w s; cbn [write_loop]; [reflexivity|].
  destruct (post_status_code _ =? 200)%Z; [reflexivity|].
  destruct (expired end_time _); [reflexivity|]. apply IH.
Qed.

(** C6, as the code has it.  Once the finished flag is set,
    [close_transport] and [read_transport] leave it set, and so does a
    [write_transport] that finds no task id or raises
    [TransportClosedError]; a [write_transport] that finds the transport
    usable and a task id closes and reopens the session itself, and only
    thereby clears the flag. *)
Theorem finished_latched (fuel : nat) (E : remote) (w : world) (s : session) :
  finished s = true ->
  finished (fst (close_transport s)) = true
  /\ (forall n timeout_sec,
        finished (snd (fst (read_transport fuel E n timeout_sec w s))) = true)
  /\ (forall data timeout_sec,
        finished (snd (fst (write_transport fuel E data timeout_sec w s))) = false ->
        unusable s = false
        /\ (exists tid, task_id s = Some tid)
        /\ reopen s
           = (fst (open_transport (options s) (fst (close_transport s))), Returned tt)
        /\ write_transport fuel E data timeout_sec w s
           = write_loop fuel E data (deadline timeout_sec w) w (reopened s)).
Proof.
  intros Hfin. split; [exact Hfin|]. split.
  - intros n timeout_sec. unfold read_transport.
    destruct (closed s); [exact Hfin|].
    destruct (task_id s); [|exact Hfin].
    now apply read_loop_finished_kept.
  - intros data timeout_sec Hclear.
    destruct (unusable s) eqn:Hok.
    { unfold write_transport in Hclear. rewrite Hok in Hclear. cbn in Hclear. congruence. }
    rewrite (write_transport_loop _ _ _ _ _ _ Hok) in Hclear.
    rewrite write_loop_finished in Hclear.
    destruct (task_id s) as [tid|] eqn:Htid.
    + split; [reflexivity|]. split; [now exists tid|].
      split; [exact (reopen_some s tid Htid)|].
      rewrite (write_transport_loop _ _ _ _ _ _ Hok).
      now rewrite (reopen_some s tid Htid).
    + rewrite (reopen_none s Htid) in Hclear. cbn in Hclear. congruence.
Qed.

Lemma finished_latched_witness :
  finished (snd Scenario.drained) = true
  /\ finished (fst (close_transport (snd Scenario.drained))) = true
  /\ finished (snd (fst (read_transport 1 Scenario.done_abc 1 None
                           (fst Scenario.drained) (snd Scenario.drained)))) = true.
Proof.
  assert (Hfin : finished (snd Scenario.drained) = true) by (vm_compute; reflexivity).
  split; [exact Hfin|].
  destruct (finished_latched 1 Scenario.done_abc (fst Scenario.drained)
              (snd Scenario.drained) Hfin) as (Hclose & Hread & _).
  split; [exact Hclose|exact (Hread 1%Z None)].
Defined.

(** C6 as stated fails: the flag set by a [read_transport], a
    [write_transport] clears it. *)
Lemma write_transport_clears_finished :
  finished (snd Scenario.started) = false
  /\ Scenario.drained
     = fst (read_transport 1 Scenario.done_abc 3 None
              (fst Scenario.started) (snd Scenario.started))
  /\ finished (snd Scenario.drained) = true
  /\ snd (write_transport 1 Scenario.accepting_again Scenario.abc None
            (fst Scenario.drained) (snd Scenario.drained)) = Returned tt
  /\ finished (snd (fst (write_transport 1 Scenario.accepting_again Scenario.abc None
                           (fst Scenario.drained) (snd Scenario.drained)))) = false.
Proof.
  split; [vm_compute; reflexivity|]. split; [vm_compute; reflexivity|].
  split; [vm_compute; reflexivity|]. split; vm_compute; reflexivity.
Qed.

(** ** [write_transport]: retries and the deadline *)

Lemma attempt_clock_0 (E : remote) (w : world) :
  attempt_clock E w 0 = now (after_post E w).
Proof. unfold attempt_clock, after_post. cbn. lia. Qed.

Lemma attempt_clock_shift (E : remote) (w : world) (j : nat) :
  attempt_clock E (sleep (after_post E w)) j = attempt_clock E w (S j).
Proof.
  unfold attempt_clock, sleep, after_post. cbn [now posts].
  change (spent E (posts w) (S (S j)))
    with (post_time E (posts w) + spent E (S (posts w)) (S j))%Z.
  lia.
Qed.

Lemma attempts_failed_shift (E : remote) (data : bytes) (end_time : option Z)
    (w : world) (s : session) (m : nat) :
  post_status_code (post_reply E (posts w) (submission data s)) <> 200%Z ->
  expired end_time (now (after_post E w)) = false ->
  attempts_failed E data end_time (sleep (after_post E w)) s m ->
  attempts_failed E data end_time w s (S m).
Proof.
  intros Hrefused Hearly Hrest [|j] Hj.
  - rewrite Nat.add_0_r, attempt_clock_0. now split.
  - specialize (Hrest j ltac:(lia)).
    rewrite attempt_clock_shift in Hrest. cbn [sleep after_post posts] in Hrest.
    replace (posts w + S j) with (S (posts w) + j) by lia. exact Hrest.
Qed.

Lemma write_loop_trace (fuel : nat) (E : remote) (data : bytes)
    (end_time : option Z) :
  forall w s,
    match write_loop fuel E data end_time w s with
    | (w', s', Returned _) =>
        exists m, m < fuel /\ posts w' = posts w + S m
          /\ attempts_failed E data end_time w s m
          /\ post_status_code (post_reply E (posts w + m) (submission data s)) = 200%Z
          /\ s' = set_task_id
                    (Some (post_text (post_reply E (posts w + m) (submission data s)))) s
          /\ now w' = attempt_clock E w m
    | (w', s', Raised e) =>
        e = IoTimeoutError
        /\ exists m, m < fuel /\ posts w' = posts w + S m
          /\ attempts_failed E data end_time w s m
          /\ post_status_code (post_reply E (posts w + m) (submission data s)) <> 200%Z
          /\ expired end_time (attempt_clock E w m) = true
          /\ s' = s
          /\ now w' = attempt_clock E w m
    | (w', s', OutOfFuel) =>
        posts w' = posts w + fuel
        /\ attempts_failed E data end_time w s fuel
        /\ s' = s
    end.
Proof.
  induction fuel as [|fuel IH]; intros w s; cbn [write_loop].
  - split; [lia|]. split; [|reflexivity]. intros j Hj. lia.
  - destruct (post_status_code (post_reply E (posts w) (submission data s)) =? 200)%Z
      eqn:Hok.
    + exists 0. rewrite Nat.add_0_r, attempt_clock_0. cbn [after_post posts].
      split; [lia|]. split; [lia|]. split; [intros j Hj; lia|].
      split; [now apply Z.eqb_eq|]. split; reflexivity.
    + apply Z.eqb_neq in Hok.
      destruct (expired end_time (now (after_post E w))) eqn:Hlate.
      * split; [reflexivity|]. exists 0.
        rewrite Nat.add_0_r, attempt_clock_0. cbn [after_post posts].
        split; [lia|]. split; [lia|]. split; [intros j Hj; lia|].
        split; [exact Hok|]. split; [exact Hlate|]. split; reflexivity.
      * specialize (IH (sleep (after_post E w)) s).
        destruct (write_loop fuel E data end_time (sleep (after_post E w)) s)
          as [[w' s'] [u|e|]]; cbn [sleep after_post posts] in IH.
        -- destruct IH as (m & Hm & Hposts & Hfailed & Hstatus & Hs & Hnow).
           exists (S m). rewrite attempt_clock_shift in Hnow.
           replace (posts w + S m) with (S (posts w) + m) by lia.
           split; [lia|]. split; [lia|].
           split; [now apply attempts_failed_shift|]. now repeat split.
        -- destruct IH as (He & m & Hm & Hposts & Hfailed & Hstatus & Hexp & Hs & Hnow).
           split; [exact He|]. exists (S m).
           rewrite attempt_clock_shift in Hnow, Hexp.
           replace (posts w + S m) with (S (posts w) + m) by lia.
           split; [lia|]. split; [lia|].
           split; [now apply attempts_failed_shift|]. now repeat split.
        -- destruct IH as (Hposts & Hfailed & Hs).
           split; [lia|]. split; [now apply attempts_failed_shift|exact Hs].
Qed.

Lemma write_loop_terminates (E : remote) (data : bytes) (e : Z) :
  (forall k, (0 <= post_time E k)%Z) ->
  forall fuel w s,
    (e - now w < 500 * Z.of_nat fuel)%Z ->
    snd (write_loop (S fuel) E data (Some e) w s) <> OutOfFuel.
Proof.
  intros Hpos. induction fuel as [|fuel IH]; intros w s Hbound.
  - cbn [write_loop]. destruct (post_status_code _ =? 200)%Z; [discriminate|].
    pose proof (Hpos (posts w)).
    unfold expired, after_post. cbn [now].
    destruct (e <? now w + post_time E (posts w))%Z eqn:Hlate; [discriminate|].
    apply Z.ltb_ge in Hlate. exfalso. lia.
  - change (write_loop (S (S fuel)) E data (Some e) w s)
      with (let response := post_reply E (posts w) (submission data s) in
            let w1 := after_post E w in
            if (post_status_code response =? 200)%Z then
              (w1, set_task_id (Some (post_text response)) s, Returned tt)
            else if expired (Some e) (now w1) then (w1, s, Raised IoTimeoutError)
            else write_loop (S fuel) E data (Some e) (sleep w1) s).
    cbn zeta. destruct (post_status_code _ =? 200)%Z; [discriminate|].
    destruct (expired (Some e) (now (after_post E w))); [discriminate|].
    apply IH. pose proof (Hpos (posts w)).
    unfold sleep, after_post. cbn [now]. lia.
Qed.

(** C8. A usable [write_transport] computes its deadline once, from the
    clock at entry, and submits until the service accepts or the deadline
    has passed:
    - a call that returns was accepted at some attempt [m], all attempts
      before it having been refused before the deadline, and records the
      id the service answered;
    - a call that raises raises [IoTimeoutError], had a timeout [t], and
      its last attempt [m] was refused with the clock past [now + t], all
      attempts before it having been refused before the deadline; no task
      id is recorded;
    - attempt [m] is answered after [m + 1] requests and [m] sleeps of
      500 ms ([attempt_clock]);
    - with a timeout of [t] ms and requests that take no negative time the
      call ends within [t / 500 + 2] attempts;
    - without a timeout, against a service that refuses every submission,
      the call is still retrying after any number of attempts. *)
Theorem write_transport_deadline (E : remote) (data : bytes) (w : world)
    (s : session) :
  unusable s = false ->
  (forall fuel timeout_sec w' s' out,
     write_transport fuel E data timeout_sec w s = (w', s', out) ->
     match out with
     | Returned _ =>
         exists m, m < fuel /\ posts w' = posts w + S m
           /\ attempts_failed E data (deadline timeout_sec w) w (fst (reopen s)) m
           /\ post_status_code
                (post_reply E (posts w + m) (submission data (fst (reopen s)))) = 200%Z
           /\ task_id s'
              = Some (post_text
                        (post_reply E (posts w + m) (submission data (fst (reopen s)))))
           /\ now w' = attempt_clock E w m
     | Raised e =>
         e = IoTimeoutError
         /\ exists t, timeout_sec = Some t
           /\ exists m, m < fuel /\ posts w' = posts w + S m
             /\ attempts_failed E data (Some (now w + t)%Z) w (fst (reopen s)) m
             /\ post_status_code
                  (post_reply E (posts w + m) (submission data (fst (reopen s))))
                <> 200%Z
             /\ (now w + t < attempt_clock E w m)%Z
             /\ task_id s' = None
             /\ now w' = attempt_clock E w m
     | OutOfFuel =>
         posts w' = posts w + fuel
         /\ attempts_failed E data (deadline timeout_sec w) w (fst (reopen s)) fuel
     end)
  /\ (forall fuel t,
        (forall k, (0 <= post_time E k)%Z) ->
        (t < 500 * Z.of_nat fuel)%Z ->
        snd (write_transport (S fuel) E data (Some t) w s) <> OutOfFuel)
  /\ (forall fuel,
        (forall k, post_status_code
                     (post_reply E (posts w + k) (submission data (fst (reopen s))))
                   <> 200%Z) ->
        snd (write_transport fuel E data None w s) = OutOfFuel).
Proof.
  intros Hok. split; [|split].
  - intros fuel timeout_sec w' s' out Hrun.
    rewrite (write_transport_loop _ _ _ _ _ _ Hok) in Hrun.
    pose proof (write_loop_trace fuel E data (deadline timeout_sec w) w (fst (reopen s)))
      as Htrace.
    rewrite Hrun in Htrace. destruct out as [u|e|].
    + destruct Htrace as (m & Hm & Hposts & Hfailed & Hstatus & Hs & Hnow).
      exists m. repeat (split; [assumption|]). split; [|exact Hnow].
      rewrite Hs. reflexivity.
    + destruct Htrace as (He & m & Hm & Hposts & Hfailed & Hstatus & Hexp & Hs & Hnow).
      split; [exact He|].
      destruct timeout_sec as [t|]; [|discriminate].
      exists t. split; [reflexivity|]. exists m. cbn [deadline] in *.
      repeat (split; [assumption|]).
      split; [unfold expired in Hexp; now apply Z.ltb_lt|].
      split; [|exact Hnow]. rewrite Hs. apply reopen_task_id.
    + destruct Htrace as (Hposts & Hfailed & _). now split.
  - intros fuel t Hpos Hbound.
    rewrite (write_transport_loop _ _ _ _ _ _ Hok). cbn [deadline].
    apply write_loop_terminates; [exact Hpos|lia].
  - intros fuel Hrefuse.
    rewrite (write_transport_loop _ _ _ _ _ _ Hok).
    pose proof (write_loop_trace fuel E data (deadline None w) w (fst (reopen s)))
      as Htrace.
    destruct (write_loop fuel E data (deadline None w) w (fst (reopen s)))
      as [[w' s'] [u|e|]]; [| |reflexivity].
    + destruct Htrace as (m & _ & _ & _ & Hstatus & _).
      exfalso. exact (Hrefuse m Hstatus).
    + destruct Htrace as (_ & m & _ & _ & _ & _ & Hexp & _). discriminate.
Qed.

Lemma write_transport_deadline_witness :
  unusable (snd Scenario.started) = false
  /\ snd (write_transport 2 Scenario.refusing Scenario.abc (Some 100%Z)
            (fst Scenario.started) (snd Scenario.started)) <> OutOfFuel
  /\ snd (write_transport 7 Scenario.refusing Scenario.abc None
            (fst Scenario.started) (snd Scenario.started)) = OutOfFuel.
Proof.
  assert (Hok : unusable (snd Scenario.started) = false) by (vm_compute; reflexivity).
  split; [exact Hok|].
  destruct (write_transport_deadline Scenario.refusing Scenario.abc
              (fst Scenario.started) (snd Scenario.started) Hok)
    as (_ & Hbounded & Hforever).
  split.
  - apply (Hbounded 1 100%Z); [intros k; cbn; lia|lia].
  - apply (Hforever 7). intros k. cbn. discriminate.
Defined.

(** ** The read cursor and the read buffer *)

Lemma absorb_fields (j : json_body) (s : session) :
  url (absorb j s) = url s /\ task_id (absorb j s) = task_id s
  /\ closed (absorb j s) = closed s /\ readpos (absorb j s) = readpos s.
Proof.
  destruct j as [|[st|] out]; cbn; auto.
  destruct (is_finished_status st), out; cbn; auto.
Qed.

Lemma refresh_fields (E : remote) (w : world) (s : session) :
  url (snd (refresh E w s)) = url s /\ task_id (snd (refresh E w s)) = task_id s
  /\ closed (snd (refresh E w s)) = closed s
  /\ readpos (snd (refresh E w s)) = readpos s.
Proof.
  unfold refresh.
  destruct ((length (readbuf s) <=? readpos s) && negb (finished s)); [|now cbn].
  destruct (get_status_code _ =? 200)%Z; [|now cbn]. apply absorb_fields.
Qed.

Lemma refresh_readbuf (E : remote) (w : world) (s : session) :
  (fst (refresh E w s) = w /\ readbuf (snd (refresh E w s)) = readbuf s)
  \/ (fst (refresh E w s) = after_get E w
      /\ readbuf (snd (refresh E w s)) = default (readbuf s) (polled E s (gets w))).
Proof.
  unfold refresh, polled, snapshot.
  destruct ((length (readbuf s) <=? readpos s) && negb (finished s)); [|now left].
  right. destruct (get_status_code _ =? 200)%Z; [|now cbn].
  cbn [fst snd]. split; [reflexivity|].
  destruct (get_json _) as [|[st|] out]; cbn; try reflexivity.
  destruct (is_finished_status st), out; reflexivity.
Qed.

Lemma consume_fields (n : Z) (s : session) (ret : bytes) :
  url (fst (consume n s ret)) = url s
  /\ task_id (fst (consume n s ret)) = task_id s
  /\ closed (fst (consume n s ret)) = closed s
  /\ readbuf (fst (consume n s ret)) = readbuf s.
Proof. unfold consume. now destruct (readpos s <? length (readbuf s)). Qed.

Lemma consume_cursor (n : Z) (s : session) (ret : bytes) :
  readpos s <= length (readbuf s) ->
  readpos (fst (consume n s ret)) <= length (readbuf s).
Proof.
  intros Hle. unfold consume.
  destruct (readpos s <? length (readbuf s)); [|exact Hle]. cbn [fst readpos set_readpos].
  rewrite py_slice_length, slice_bound_nat.
  pose proof (slice_bound_le (length (readbuf s))
                (Z.of_nat (readpos s) + n - Z.of_nat (length ret))).
  lia.
Qed.

Lemma grow_only_ext (E : remote) (w w' : world) (s s' : session) :
  url s' = url s -> task_id s' = task_id s -> readbuf s' = readbuf s ->
  gets w' = gets w ->
  grow_only E w s -> grow_only E w' s'.
Proof.
  unfold grow_only, polled. intros -> -> -> ->. exact id.
Qed.

Lemma grow_only_refresh (E : remote) (w : world) (s : session) :
  readpos s <= length (readbuf s) -> grow_only E w s ->
  readpos (snd (refresh E w s)) <= length (readbuf (snd (refresh E w s)))
  /\ grow_only E (fst (refresh E w s)) (snd (refresh E w s)).
Proof.
  intros Hle Hgrow.
  destruct (refresh_fields E w s) as (Hurl & Htid & _ & Hpos).
  destruct (refresh_readbuf E w s) as [[Hw Hbuf]|[Hw Hbuf]].
  - split; [rewrite Hpos, Hbuf; exact Hle|].
    apply (grow_only_ext E w _ s); auto. now rewrite Hw.
  - destruct Hgrow as [Hfloor Hmono]. rewrite Hpos.
    destruct (polled E s (gets w)) as [b|] eqn:Hpoll; cbn in Hbuf.
    + pose proof (Hfloor (gets w) b (Nat.le_refl _) Hpoll) as Hb.
      split; [rewrite Hbuf; lia|].
      unfold grow_only, polled. rewrite Hurl, Htid, Hbuf, Hw. cbn [after_get gets].
      split.
      * intros i b' Hi Hp. apply (Hmono (gets w) i b b'); auto; lia.
      * intros i j bi bj Hi Hij. apply Hmono; lia.
    + split; [rewrite Hbuf; exact Hle|].
      unfold grow_only, polled. rewrite Hurl, Htid, Hbuf, Hw. cbn [after_get gets].
      split.
      * intros i b' Hi. apply Hfloor. lia.
      * intros i j bi bj Hi Hij. apply Hmono; lia.
Qed.

Lemma read_loop_cursor (fuel : nat) (E : remote) (n : Z) (end_time : option Z) :
  forall w s ret,
    readpos s <= length (readbuf s) -> grow_only E w s ->
    readpos (snd (fst (read_loop fuel E n end_time w s ret)))
    <= length (readbuf (snd (fst (read_loop fuel E n end_time w s ret)))).
Proof.
  induction fuel as [|fuel IH]; intros w s ret Hle Hgrow; cbn [read_loop].
  - exact Hle.
  - destruct (grow_only_refresh E w s Hle Hgrow) as [Hle1 Hgrow1].
    destruct (refresh E w s) as [w1 s1]. cbn [fst snd] in *.
    pose proof (consume_cursor n s1 ret Hle1) as Hle2.
    destruct (consume_fields n s1 ret) as (Hurl & Htid & _ & Hbuf).
    destruct (consume n s1 ret) as [s2 ret2]. cbn [fst snd] in *.
    rewrite <- Hbuf in Hle2.
    destruct (n <=? Z.of_nat (length ret2))%Z; [exact Hle2|].
    destruct (finished s2).
    + destruct (length ret2 =? 0); exact Hle2.
    + destruct (expired end_time (now w1)); [exact Hle2|].
      apply IH; [exact Hle2|]. now apply (grow_only_ext E w1 _ s1).
Qed.

Lemma write_loop_cursor (fuel : nat) (E : remote) (data : bytes)
    (end_time : option Z) :
  forall w s,
    readpos (snd (fst (write_loop fuel E data end_time w s))) = readpos s
    /\ readbuf (snd (fst (write_loop fuel E data end_time w s))) = readbuf s.
Proof.
  induction fuel as [|fuel IH]; intros w s; cbn [write_loop]; [now split|].
  destruct (post_status_code _ =? 200)%Z; [now split|].
  destruct (expired end_time _); [now split|]. apply IH.
Qed.

(** C1, as the code has it.  While the transport is open, and as long as
    the output the service reports only grows, the read cursor is at most
    the length of the read buffer, after any sequence of calls.
    ([close_transport] and [flash] empty the buffer and leave the cursor,
    which [open_transport] resets.) *)
Theorem cursor_within_buffer (w : world) (s : session) :
  reachable grow_only w s -> closed s = false ->
  readpos s <= length (readbuf s).
Proof.
  induction 1 as [w o|w s cwd o Hs IH|w s o Hs IH|w s Hs IH
                  |w s fuel E n t Hs IH Hgrow|w s fuel E data t Hs IH].
  - unfold init. cbn. discriminate.
  - unfold flash. destruct (closed s) eqn:Hc; cbn [negb fst].
    + cbn. discriminate.
    + intros _. now apply IH.
  - unfold open_transport. destruct (closed s) eqn:Hc; cbn [negb fst].
    + intros _. cbn. lia.
    + intros _. now apply IH.
  - cbn. discriminate.
  - unfold read_transport. destruct (closed s) eqn:Hc; cbn [fst snd].
    + congruence.
    + intros _. destruct (task_id s); cbn [fst snd]; [|now apply IH].
      apply read_loop_cursor; [now apply IH|exact Hgrow].
  - destruct (unusable s) eqn:Hok.
    + unfold write_transport. rewrite Hok. cbn [fst snd]. exact IH.
    + rewrite (write_transport_loop _ _ _ _ _ _ Hok). intros _.
      destruct (write_loop_cursor fuel E data (deadline t w) w (fst (reopen s)))
        as [-> ->].
      destruct (task_id s) as [tid|] eqn:Htid.
      * rewrite (reopen_some s tid Htid). cbn [fst].
        destruct (reopened_fields s) as (_ & _ & -> & -> & _). cbn. lia.
      * rewrite (reopen_none s Htid). cbn [fst]. apply IH.
        unfold unusable in Hok. now destruct (closed s).
Qed.

(** ** Reachable states *)

Lemma reachable_weaken (P Q : remote -> world -> session -> Prop) :
  (forall E w s, P E w s -> Q E w s) ->
  forall w s, reachable P w s -> reachable Q w s.
Proof.
  intros HPQ w s Hreach.
  induction Hreach; try (now constructor). constructor; auto.
Qed.

Lemma exec_reachable (P : remote -> world -> session -> Prop)
    (cs : list (nat * remote * call)) :
  forall w s,
    reachable P w s -> admissible P cs w s ->
    reachable P (fst (exec cs w s)) (snd (exec cs w s)).
Proof.
  induction cs as [|[[fuel E] c] cs IH]; intros w s Hreach Hadm; [exact Hreach|].
  cbn [exec]. destruct Hadm as [Hc Hrest].
  destruct (run fuel E c w s) as [w1 s1] eqn:Hrun. cbn [fst snd] in Hrest.
  apply IH; [|exact Hrest].
  destruct c as [cwd o|o| |n t|data t]; cbn [run] in Hrun.
  - injection Hrun as <- <-. now constructor.
  - injection Hrun as <- <-. now constructor.
  - injection Hrun as <- <-. now constructor.
  - pose proof (reach_read P w s fuel E n t Hreach Hc) as Hstep.
    now rewrite Hrun in Hstep.
  - pose proof (reach_write P w s fuel E data t Hreach) as Hstep.
    now rewrite Hrun in Hstep.
Qed.

Lemma started_reachable (P : remote -> world -> session -> Prop) :
  reachable P (fst Scenario.started) (snd Scenario.started).
Proof.
  unfold Scenario.started. apply exec_reachable; [constructor|].
  cbn [admissible]. auto.
Qed.

Lemma done_abc_grows (w : world) (s : session) :
  length (readbuf s) <= 3 -> grow_only Scenario.done_abc w s.
Proof.
  intros Hbuf. split.
  - intros i b _ [= <-]. exact Hbuf.
  - intros i j bi bj _ _ [= <-] [= <-]. lia.
Qed.

Lemma drained_reachable :
  reachable grow_only (fst Scenario.drained) (snd Scenario.drained).
Proof.
  unfold Scenario.drained. apply exec_reachable; [apply started_reachable|].
  cbn [admissible]. split; [|exact I].
  apply done_abc_grows. vm_compute. lia.
Qed.

Lemma cursor_within_buffer_witness :
  reachable grow_only (fst Scenario.drained) (snd Scenario.drained)
  /\ closed (snd Scenario.drained) = false
  /\ readpos (snd Scenario.drained) <= length (readbuf (snd Scenario.drained)).
Proof.
  assert (Hopen : closed (snd Scenario.drained) = false) by (vm_compute; reflexivity).
  split; [exact drained_reachable|]. split; [exact Hopen|].
  exact (cursor_within_buffer (fst Scenario.drained) (snd Scenario.drained)
           drained_reachable Hopen).
Defined.

(** C1 as stated fails.  [close_transport] empties the buffer and leaves
    the cursor where it was, whatever the service does; and on an open
    transport a poll that yields less output than was already read leaves
    the cursor beyond the new buffer. *)
Lemma cursor_beyond_buffer :
  (reachable grow_only (fst Scenario.read_then_closed) (snd Scenario.read_then_closed)
   /\ reachable any_remote
        (fst Scenario.read_then_closed) (snd Scenario.read_then_closed)
   /\ closed (snd Scenario.read_then_closed) = true
   /\ readpos (snd Scenario.read_then_closed) = 1
   /\ length (readbuf (snd Scenario.read_then_closed)) = 0)
  /\ (reachable any_remote (fst Scenario.shrunk) (snd Scenario.shrunk)
      /\ closed (snd Scenario.shrunk) = false
      /\ readpos (snd Scenario.shrunk) = 3
      /\ length (readbuf (snd Scenario.shrunk)) = 1).
Proof.
  assert (Hclosed : reachable grow_only (fst Scenario.read_then_closed)
                      (snd Scenario.read_then_closed)).
  { unfold Scenario.read_then_closed. apply exec_reachable; [apply started_reachable|].
    cbn [admissible]. split; [|now split].
    apply done_abc_grows. vm_compute. lia. }
  split.
  - split; [exact Hclosed|].
    split; [exact (reachable_weaken grow_only any_remote (fun _ _ _ _ => I) _ _ Hclosed)|].
    split; [vm_compute; reflexivity|]. split; vm_compute; reflexivity.
  - split.
    + unfold Scenario.shrunk. apply exec_reachable; [apply started_reachable|].
      cbn [admissible]. unfold any_remote. auto.
    + split; [vm_compute; reflexivity|]. split; vm_compute; reflexivity.
Qed.

(** ** Failed calls *)

(** A [write_transport] that raises [IoTimeoutError] leaves no task id. *)
Lemma write_timeout_leaves_no_task_id (fuel : nat) (E : remote) (data : bytes)
    (timeout_sec : option Z) (w w' : world) (s s' : session) :
  write_transport fuel E data timeout_sec w s = (w', s', Raised IoTimeoutError) ->
  task_id s' = None.
Proof.
  intros Hrun. destruct (unusable s) eqn:Hok.
  - unfold write_transport in Hrun. rewrite Hok in Hrun. discriminate.
  - rewrite (write_transport_loop _ _ _ _ _ _ Hok) in Hrun.
    pose proof (write_loop_trace fuel E data (deadline timeout_sec w) w (fst (reopen s)))
      as Htrace.
    rewrite Hrun in Htrace.
    destruct Htrace as (_ & m & _ & _ & _ & _ & _ & -> & _).
    apply reopen_task_id.
Qed.

(** A [read_transport] that raises with the task finished has taken
    nothing from the buffer: the error is raised only on an empty result,
    and the cursor has advanced by the length of the result. *)
Lemma read_loop_advance (fuel : nat) (E : remote) (n : Z) (end_time : option Z) :
  forall w s ret w' s' e,
    read_loop fuel E n end_time w s ret = (w', s', Raised e) ->
    finished s' = true ->
    ret = [] /\ readpos s' = readpos s.
Proof.
  induction fuel as [|fuel IH]; intros w s ret w' s' e; cbn [read_loop].
  - discriminate.
  - destruct (refresh_fields E w s) as (_ & _ & _ & Hpos).
    destruct (refresh E w s) as [w1 s1]. cbn [snd] in Hpos.
    pose proof (consume_finished n s1 ret) as Hfin.
    assert (Hacc : snd (consume n s1 ret) = [] ->
                   ret = [] /\ readpos (fst (consume n s1 ret)) = readpos s1).
    { unfold consume. destruct (readpos s1 <? length (readbuf s1)); cbn [fst snd].
      - intros Hnil. apply app_eq_nil in Hnil as [-> Hportion].
        rewrite Hportion. cbn. split; [reflexivity|lia].
      - intros ->. now split. }
    destruct (consume n s1 ret) as [s2 ret2]. cbn [fst snd] in *.
    destruct (n <=? Z.of_nat (length ret2))%Z; [discriminate|].
    destruct (finished s2) eqn:Hfin2.
    + destruct (length ret2 =? 0) eqn:Hempty; [|discriminate].
      intros [= <- <- <-] _. apply Nat.eqb_eq, length_zero_iff_nil in Hempty.
      destruct (Hacc Hempty) as [-> ->]. now split.
    + destruct (expired end_time (now w1)); [intros [= <- <- <-]; congruence|].
      intros Hrun Hfin'. destruct (IH _ _ _ _ _ _ Hrun Hfin') as [-> Hpos'].
      destruct (Hacc eq_refl) as [-> Hpos2]. split; [reflexivity|]. congruence.
Qed.

(** C2, where the code departs from it.  Ten bytes are asked for; the
    service reports the task running with output [abc]; the deadline
    passes.  The call raises [IoTimeoutError] with the cursor past [abc],
    so that no later call returns those bytes: against a service that
    then reports the task finished with the same output the next call
    raises [IoTimeoutError] as well, and against one that reports two
    more bytes it returns those two only. *)
Theorem read_timeout_drops_bytes :
  snd (read_transport 1 Scenario.running_abc 10 (Some 0%Z)
         (fst Scenario.started) (snd Scenario.started))
  = Raised IoTimeoutError
  /\ Scenario.timed_out
     = fst (read_transport 1 Scenario.running_abc 10 (Some 0%Z)
              (fst Scenario.started) (snd Scenario.started))
  /\ readbuf (snd Scenario.timed_out) = Scenario.abc
  /\ readpos (snd Scenario.timed_out) = 3
  /\ snd (read_transport 1 Scenario.done_abc 10 None
            (fst Scenario.timed_out) (snd Scenario.timed_out))
     = Raised IoTimeoutError
  /\ snd (read_transport 1 Scenario.done_abcde 10 None
            (fst Scenario.timed_out) (snd Scenario.timed_out))
     = Returned [Byte.x64; Byte.x65].
Proof.
  split; [vm_compute; reflexivity|]. split; [vm_compute; reflexivity|].
  split; [vm_compute; reflexivity|]. split; [vm_compute; reflexivity|].
  split; vm_compute; reflexivity.
Qed.

(** ** The claims at concrete inputs *)

Lemma read_transport_guards_witness :
  closed (init None) = true
  /\ read_transport 1 Scenario.done_abc 3 None Scenario.dawn (init None)
     = (Scenario.dawn, init None, Raised TransportClosedError)
  /\ closed (fst (open_transport None (init None))) = false
  /\ task_id (fst (open_transport None (init None))) = None
  /\ read_transport 1 Scenario.done_abc 3 None Scenario.dawn
       (fst (open_transport None (init None)))
     = (Scenario.dawn, fst (open_transport None (init None)),
        Raised CITransportUsageError).
Proof.
  assert (Hclosed : closed (init None) = true) by reflexivity.
  assert (Hopen : closed (fst (open_transport None (init None))) = false)
    by reflexivity.
  assert (Htid : task_id (fst (open_transport None (init None))) = None)
    by reflexivity.
  split; [exact Hclosed|].
  split;
    [exact (proj1 (read_transport_guards 1 Scenario.done_abc 3 None Scenario.dawn
                     (init None)) Hclosed)|].
  split; [exact Hopen|]. split; [exact Htid|].
  exact (proj2 (read_transport_guards 1 Scenario.done_abc 3 None Scenario.dawn
                  (fst (open_transport None (init None)))) Hopen Htid).
Defined.

Lemma read_transport_zero_witness :
  closed (snd Scenario.started) = false
  /\ task_id (snd Scenario.started) = Some "task-1"
  /\ snd (read_transport 1 Scenario.done_silent 0 (Some 0%Z)
            (fst Scenario.started) (snd Scenario.started)) = Returned [].
Proof.
  assert (Hopen : closed (snd Scenario.started) = false) by (vm_compute; reflexivity).
  assert (Htid : task_id (snd Scenario.started) = Some "task-1")
    by (vm_compute; reflexivity).
  split; [exact Hopen|]. split; [exact Htid|].
  rewrite (proj1 (read_transport_zero 0 Scenario.done_silent (Some 0%Z)
                    (fst Scenario.started) (snd Scenario.started) "task-1" Hopen Htid)).
  reflexivity.
Defined.

Lemma read_transport_length_witness :
  (0 <= 10)%Z
  /\ read_transport 1 Scenario.done_abc 10 None
       (fst Scenario.started) (snd Scenario.started)
     = (fst Scenario.drained, snd Scenario.drained, Returned Scenario.abc)
  /\ (Z.of_nat (length Scenario.abc) <= 10)%Z
  /\ (finished (snd Scenario.drained) = false -> Z.of_nat (length Scenario.abc) = 10%Z).
Proof.
  assert (Hn : (0 <= 10)%Z) by lia.
  assert (Hrun : read_transport 1 Scenario.done_abc 10 None
                   (fst Scenario.started) (snd Scenario.started)
                 = (fst Scenario.drained, snd Scenario.drained, Returned Scenario.abc))
    by (vm_compute; reflexivity).
  split; [exact Hn|]. split; [exact Hrun|].
  exact (read_transport_length 1 Scenario.done_abc 10 None
           (fst Scenario.started) (fst Scenario.drained)
           (snd Scenario.started) (snd Scenario.drained) Scenario.abc Hn Hrun).
Defined.

(** * Further properties *)

(** ** Configuration *)

Lemma _set_options_some (d : gmap string pyval) (s : session) :
  _set_options (Some d) s
  = mkSession (pick d "url" (url s)) (pick d "api_key" (api_key s))
              (pick d "task_timeout" (task_timeout s)) (pick d "rate" (rate s))
              (pick d "log" (log s)) (Some d)
              (task_id s) (closed s) (readpos s) (readbuf s) (finished s)
              (firmware s).
Proof.
  unfold _set_options, override, pick.
  destruct (is_none (dict_get d "url")), (is_none (dict_get d "api_key")),
    (is_none (dict_get d "task_timeout")), (is_none (dict_get d "rate")),
    (is_none (dict_get d "log")); reflexivity.
Qed.

Lemma pick_pick (d : gmap string pyval) (key : string) (old : pyval) :
  pick d key (pick d key old) = pick d key old.
Proof. unfold pick. now destruct (is_none (dict_get d key)). Qed.

(** X1. Giving the same options a second time changes nothing. *)
Theorem _set_options_idempotent (o : option (gmap string pyval)) (s : session) :
  _set_options o (_set_options o s) = _set_options o s.
Proof.
  destruct o as [d|]; [|reflexivity].
  rewrite !_set_options_some. cbn. now rewrite !pick_pick.
Qed.

(** X2. Options given one after the other merge field by field: each
    tunable is the entry of the later dictionary, else that of the earlier
    one, else what it was (an absent entry and a [None] entry both count
    as none); the options remembered are the later ones, and nothing but
    the five tunables and the remembered options is touched. *)
Theorem _set_options_merge (d1 d2 : gmap string pyval) (s : session) :
  _set_options (Some d2) (_set_options (Some d1) s)
  = mkSession (pick d2 "url" (pick d1 "url" (url s)))
              (pick d2 "api_key" (pick d1 "api_key" (api_key s)))
              (pick d2 "task_timeout" (pick d1 "task_timeout" (task_timeout s)))
              (pick d2 "rate" (pick d1 "rate" (rate s)))
              (pick d2 "log" (pick d1 "log" (log s)))
              (Some d2)
              (task_id s) (closed s) (readpos s) (readbuf s) (finished s)
              (firmware s).
Proof. rewrite !_set_options_some. reflexivity. Qed.

Lemma settled_set_options (o : option (gmap string pyval)) (s : session) :
  settled s -> settled (_set_options o s).
Proof.
  destruct o as [d|]; [|exact id]. intros _.
  rewrite _set_options_some. unfold settled. cbn.
  now rewrite !pick_pick.
Qed.

Lemma settled_tunables (s s' : session) :
  url s' = url s -> api_key s' = api_key s -> task_timeout s' = task_timeout s ->
  rate s' = rate s -> log s' = log s -> options s' = options s ->
  settled s -> settled s'.
Proof. unfold settled. intros -> -> -> -> -> ->. exact id. Qed.

Lemma settled_frame (s s' : session) :
  same_config s s' -> settled s -> settled s'.
Proof.
  intros (Hu & Hk & Ht & Hr & Hl & Ho & _). now apply settled_tunables.
Qed.

Lemma settled_fixpoint (s : session) :
  settled s -> _set_options (options s) s = s.
Proof.
  unfold settled. destruct s as [u k tt r l o ti c rp rb f fw]. cbn.
  destruct o as [d|]; [|reflexivity].
  intros (Hu & Hk & Htt & Hr & Hl). rewrite _set_options_some. cbn.
  now rewrite <- Hu, <- Hk, <- Htt, <- Hr, <- Hl.
Qed.

(** ** What the calls leave alone *)

Lemma same_config_refl (s : session) : same_config s s.
Proof. now repeat split. Qed.

Lemma same_config_trans (s1 s2 s3 : session) :
  same_config s1 s2 -> same_config s2 s3 -> same_config s1 s3.
Proof.
  unfold same_config.
  intros (H1 & H2 & H3 & H4 & H5 & H6 & H7) (-> & -> & -> & -> & -> & -> & ->).
  now repeat split.
Qed.

Lemma absorb_config (j : json_body) (s : session) :
  same_config s (absorb j s) /\ task_id (absorb j s) = task_id s
  /\ closed (absorb j s) = closed s /\ readpos (absorb j s) = readpos s.
Proof.
  destruct j as [|[st|] out]; cbn; try (now repeat split).
  destruct (is_finished_status st), out; now repeat split.
Qed.

Lemma refresh_config (E : remote) (w : world) (s : session) :
  same_config s (snd (refresh E w s))
  /\ task_id (snd (refresh E w s)) = task_id s
  /\ closed (snd (refresh E w s)) = closed s
  /\ readpos (snd (refresh E w s)) = readpos s
  /\ posts (fst (refresh E w s)) = posts w
  /\ gets w <= gets (fst (refresh E w s)) <= S (gets w).
Proof.
  unfold refresh.
  destruct ((length (readbuf s) <=? readpos s) && negb (finished s));
    [|cbn; repeat split; lia].
  destruct (get_status_code _ =? 200)%Z; cbn [fst snd after_get posts gets].
  - destruct (absorb_config
                (get_json (get_reply E (gets w) (mkGetRequest (url s) (task_id s)))) s)
      as (Hc & Ht & Hcl & Hp).
    repeat split; auto; try apply Hc; lia.
  - repeat split; lia.
Qed.

Lemma consume_config (n : Z) (s : session) (ret : bytes) :
  same_config s (fst (consume n s ret))
  /\ task_id (fst (consume n s ret)) = task_id s
  /\ closed (fst (consume n s ret)) = closed s
  /\ readpos s <= readpos (fst (consume n s ret)).
Proof.
  unfold consume. destruct (readpos s <? length (readbuf s)); cbn.
  - repeat split; lia.
  - repeat split; lia.
Qed.

Lemma read_loop_frame (fuel : nat) (E : remote) (n : Z) (end_time : option Z) :
  forall w s ret,
    same_config s (snd (fst (read_loop fuel E n end_time w s ret)))
    /\ task_id (snd (fst (read_loop fuel E n end_time w s ret))) = task_id s
    /\ closed (snd (fst (read_loop fuel E n end_time w s ret))) = closed s
    /\ readpos s <= readpos (snd (fst (read_loop fuel E n end_time w s ret)))
    /\ posts (fst (fst (read_loop fuel E n end_time w s ret))) = posts w
    /\ gets w <= gets (fst (fst (read_loop fuel E n end_time w s ret)))
       <= gets w + fuel.
Proof.
  induction fuel as [|fuel IH]; intros w s ret; cbn [read_loop].
  - cbn. pose proof (same_config_refl s). repeat split; auto; lia.
  - destruct (refresh_config E w s) as (Hc1 & Ht1 & Hcl1 & Hp1 & Hposts1 & Hgets1).
    destruct (refresh E w s) as [w1 s1]. cbn [fst snd] in *.
    destruct (consume_config n s1 ret) as (Hc2 & Ht2 & Hcl2 & Hp2).
    destruct (consume n s1 ret) as [s2 ret2]. cbn [fst snd] in *.
    assert (Hhere : same_config s s2 /\ task_id s2 = task_id s
                    /\ closed s2 = closed s /\ readpos s <= readpos s2
                    /\ posts w1 = posts w /\ gets w <= gets w1 <= gets w + S fuel).
    { split; [exact (same_config_trans _ _ _ Hc1 Hc2)|].
      repeat split; try congruence; lia. }
    destruct (n <=? Z.of_nat (length ret2))%Z; [exact Hhere|].
    destruct (finished s2); [destruct (length ret2 =? 0); exact Hhere|].
    destruct (expired end_time (now w1)); [exact Hhere|].
    destruct (IH (sleep w1) s2 ret2) as (Hc3 & Ht3 & Hcl3 & Hp3 & Hposts3 & Hgets3).
    cbn [sleep posts gets] in Hposts3, Hgets3.
    destruct Hhere as (Hc & Ht & Hcl & Hp & Hposts & Hgets).
    split; [exact (same_config_trans _ _ _ Hc Hc3)|].
    repeat split; try congruence; lia.
Qed.

Lemma write_loop_session (fuel : nat) (E : remote) (data : bytes)
    (end_time : option Z) :
  forall w s,
    (snd (fst (write_loop fuel E data end_time w s)) = s
     /\ forall u, snd (write_loop fuel E data end_time w s) <> Returned u)
    \/ (exists tid,
          snd (fst (write_loop fuel E data end_time w s)) = set_task_id (Some tid) s
          /\ snd (write_loop fuel E data end_time w s) = Returned tt).
Proof.
  induction fuel as [|fuel IH]; intros w s; cbn [write_loop].
  - left. split; [reflexivity|discriminate].
  - destruct (post_status_code _ =? 200)%Z; [right; eexists; now split|].
    destruct (expired end_time _); [left; split; [reflexivity|discriminate]|].
    apply IH.
Qed.

Lemma write_loop_world (fuel : nat) (E : remote) (data : bytes)
    (end_time : option Z) :
  forall w s,
    gets (fst (fst (write_loop fuel E data end_time w s))) = gets w
    /\ posts w <= posts (fst (fst (write_loop fuel E data end_time w s)))
       <= posts w + fuel.
Proof.
  induction fuel as [|fuel IH]; intros w s; cbn [write_loop].
  - cbn. lia.
  - destruct (post_status_code _ =? 200)%Z; [cbn; lia|].
    destruct (expired end_time _); [cbn; lia|].
    destruct (IH (sleep (after_post E w)) s) as [Hg Hp].
    cbn [sleep after_post gets posts] in Hg, Hp. split; [exact Hg|lia].
Qed.

Lemma reopened_explicit (s : session) :
  settled s ->
  reopened s
  = mkSession (url s) (api_key s) (task_timeout s) (rate s) (log s) (options s)
              None false 0 [] false (firmware s).
Proof.
  unfold settled, reopened, open_transport, close_transport.
  destruct s as [u k tt r l o ti c rp rb f fw]. cbn -[_set_options].
  destruct o as [d|]; [|reflexivity].
  intros (Hu & Hk & Htt & Hr & Hl). rewrite _set_options_some. cbn.
  now rewrite <- Hu, <- Hk, <- Htt, <- Hr, <- Hl.
Qed.

Lemma reopen_config (s : session) :
  settled s -> same_config s (fst (reopen s)).
Proof.
  intros Hs. destruct (task_id s) as [tid|] eqn:Htid.
  - rewrite (reopen_some s tid Htid). cbn [fst].
    rewrite (reopened_explicit s Hs). now repeat split.
  - rewrite (reopen_none s Htid). apply same_config_refl.
Qed.

(** The tunables agree with the options last given, in every state. *)
Lemma reachable_settled (P : remote -> world -> session -> Prop) (w : world)
    (s : session) :
  reachable P w s -> settled s.
Proof.
  induction 1 as [w o|w s cwd o Hs IH|w s o Hs IH|w s Hs IH
                  |w s fuel E n t Hs IH HP|w s fuel E data t Hs IH].
  - unfold init.
    apply (settled_frame
             (_set_options o
                (mkSession (PyStr "https://cloud.all-hw.com/ci/usertask")
                   (PyStr "85282cff-fc94-4ed1-8633-6c74637e95e0")
                   (PyInt 20) (PyInt 115200) (PyInt 0) None
                   None true 0 [] false None))).
    + destruct o as [d|]; [rewrite _set_options_some|]; now repeat split.
    + apply settled_set_options. exact I.
  - unfold flash. destruct (closed s); cbn [negb fst]; [|exact IH].
    apply (settled_frame (_set_options o
                            (set_firmware (Some (cwd +:+ "/build/zephyr/zephyr.hex")) s))).
    + now repeat split.
    + apply settled_set_options.
      now apply (settled_tunables s).
  - unfold open_transport. destruct (closed s); cbn [negb fst]; [|exact IH].
    apply (settled_frame (_set_options o s)); [now repeat split|].
    now apply settled_set_options.
  - apply (settled_frame s); [now repeat split|exact IH].
  - unfold read_transport. destruct (closed s); [exact IH|].
    destruct (task_id s); [|exact IH].
    apply (settled_frame s); [apply read_loop_frame|exact IH].
  - destruct (unusable s) eqn:Hok.
    + unfold write_transport. rewrite Hok. exact IH.
    + rewrite (write_transport_loop _ _ _ _ _ _ Hok).
      assert (Hre : settled (fst (reopen s)))
        by (apply (settled_frame s); [now apply reopen_config|exact IH]).
      destruct (write_loop_session fuel E data (deadline t w) w (fst (reopen s)))
        as [[-> _]|(tid & -> & _)]; [exact Hre|].
      apply (settled_frame (fst (reopen s))); [now repeat split|exact Hre].
Qed.

(** X3. In every state the object can be in, the implicit reopening of
    [write_transport] (closing, then opening with the remembered options)
    resets the task id, the cursor, the buffer and the finished flag and
    leaves every tunable, the options and the firmware path as they
    were. *)
Theorem reopen_keeps_configuration (w : world) (s : session) :
  reachable any_remote w s ->
  reopened s
  = mkSession (url s) (api_key s) (task_timeout s) (rate s) (log s) (options s)
              None false 0 [] false (firmware s).
Proof. intros Hreach. apply reopened_explicit. exact (reachable_settled _ _ _ Hreach). Qed.

(** X4. [read_transport] changes nothing but the cursor, the buffer and
    the finished flag: the configuration, the task id and the open/closed
    state are as before, the cursor never moves back, no submission is
    made, and at most one status request is made per iteration. *)
Theorem read_transport_frame (fuel : nat) (E : remote) (n : Z)
    (timeout_sec : option Z) (w : world) (s : session) :
  same_config s (snd (fst (read_transport fuel E n timeout_sec w s)))
  /\ task_id (snd (fst (read_transport fuel E n timeout_sec w s))) = task_id s
  /\ closed (snd (fst (read_transport fuel E n timeout_sec w s))) = closed s
  /\ readpos s <= readpos (snd (fst (read_transport fuel E n timeout_sec w s)))
  /\ posts (fst (fst (read_transport fuel E n timeout_sec w s))) = posts w
  /\ gets w <= gets (fst (fst (read_transport fuel E n timeout_sec w s)))
     <= gets w + fuel.
Proof.
  unfold read_transport.
  destruct (closed s) eqn:Hc;
    [cbn; pose proof (same_config_refl s); repeat split; auto; lia|].
  destruct (task_id s) eqn:Ht;
    [|cbn; pose proof (same_config_refl s); repeat split; auto; lia].
  destruct (read_loop_frame fuel E n (deadline timeout_sec w) w s [])
    as (H1 & H2 & H3 & H4 & H5 & H6).
  repeat split; try congruence; try apply H1; lia.
Qed.

(** X5. In every state the object can be in, [write_transport] changes
    neither the configuration nor the open/closed state, makes no status
    request, and makes at most one submission per iteration. *)
Theorem write_transport_frame (fuel : nat) (E : remote) (data : bytes)
    (timeout_sec : option Z) (w : world) (s : session) :
  reachable any_remote w s ->
  same_config s (snd (fst (write_transport fuel E data timeout_sec w s)))
  /\ closed (snd (fst (write_transport fuel E data timeout_sec w s))) = closed s
  /\ gets (fst (fst (write_transport fuel E data timeout_sec w s))) = gets w
  /\ posts w <= posts (fst (fst (write_transport fuel E data timeout_sec w s)))
     <= posts w + fuel.
Proof.
  intros Hreach. pose proof (reachable_settled _ _ _ Hreach) as Hs.
  destruct (unusable s) eqn:Hok.
  - unfold write_transport. rewrite Hok. cbn.
    pose proof (same_config_refl s). repeat split; auto; lia.
  - rewrite (write_transport_loop _ _ _ _ _ _ Hok).
    pose proof (reopen_config s Hs) as Hc.
    assert (Hcl : closed (fst (reopen s)) = closed s).
    { destruct (task_id s) as [tid|] eqn:Htid.
      - rewrite (reopen_some s tid Htid). cbn [fst].
        destruct (reopened_fields s) as (-> & _).
        unfold unusable in Hok. now destruct (closed s).
      - now rewrite (reopen_none s Htid). }
    destruct (write_loop_world fuel E data (deadline timeout_sec w) w (fst (reopen s)))
      as [Hg Hp].
    destruct (write_loop_session fuel E data (deadline timeout_sec w) w (fst (reopen s)))
      as [[-> _]|(tid & -> & _)].
    + repeat split; try apply Hc; auto; lia.
    + cbn. repeat split; try apply Hc; auto; lia.
Qed.

(** ** The shape of the states *)

Lemma reachable_shape (P : remote -> world -> session -> Prop) (w : world)
    (s : session) :
  reachable P w s ->
  (is_Some (task_id s) -> closed s = false /\ is_Some (firmware s))
  /\ (closed s = false -> task_id s = None ->
      readpos s = 0 /\ readbuf s = [] /\ finished s = false).
Proof.
  induction 1 as [w o|w s cwd o Hs IH|w s o Hs IH|w s Hs IH
                  |w s fuel E n t Hs IH HP|w s fuel E data t Hs IH].
  - unfold init. cbn. split; [intros [x Hx]; discriminate|discriminate].
  - unfold flash. destruct (closed s) eqn:Hc; cbn [negb fst];
      [|rewrite Hc; exact IH].
    destruct (_set_options_keeps o
                (set_firmware (Some (cwd +:+ "/build/zephyr/zephyr.hex")) s))
      as (Ht & _).
    cbn. rewrite Ht. cbn. split; [|discriminate].
    intros Hsome. destruct (proj1 IH Hsome). congruence.
  - unfold open_transport. destruct (closed s) eqn:Hc; cbn [negb fst];
      [|rewrite Hc; exact IH].
    destruct (_set_options_keeps o s) as (Ht & _).
    cbn. rewrite Ht. split; [|now intros _ _].
    intros Hsome. destruct (proj1 IH Hsome). congruence.
  - cbn. split; [intros [x Hx]; discriminate|discriminate].
  - unfold read_transport. destruct (closed s) eqn:Hc;
      [cbn [fst snd]; first [exact IH|rewrite Hc; exact IH]|].
    destruct (task_id s) as [tid|] eqn:Ht;
      [|cbn [fst snd]; first [exact IH|rewrite Hc, Ht; exact IH]].
    destruct (read_loop_frame fuel E n (deadline t w) w s [])
      as (Hcfg & Htid & Hcl & _).
    destruct Hcfg as (_ & _ & _ & _ & _ & _ & Hfw).
    rewrite Htid, Hcl, Hfw, Ht, Hc. split; [|discriminate].
    intros _. apply IH. try rewrite Ht. now eexists.
  - destruct (unusable s) eqn:Hok.
    + unfold write_transport. rewrite Hok. cbn [fst snd]. exact IH.
    + rewrite (write_transport_loop _ _ _ _ _ _ Hok).
      assert (Hre : closed (fst (reopen s)) = false
                    /\ is_Some (firmware (fst (reopen s)))
                    /\ task_id (fst (reopen s)) = None
                    /\ readpos (fst (reopen s)) = 0
                    /\ readbuf (fst (reopen s)) = []
                    /\ finished (fst (reopen s)) = false).
      { unfold unusable in Hok.
        destruct (closed s) eqn:Hc; [discriminate|].
        destruct (firmware s) as [fw|] eqn:Hfw; [|discriminate].
        destruct (task_id s) as [tid|] eqn:Htid.
        - rewrite (reopen_some s tid Htid). cbn [fst].
          destruct (reopened_fields s) as (-> & -> & -> & -> & -> & ->).
          rewrite Hfw. repeat split; eauto.
        - rewrite (reopen_none s Htid). cbn [fst].
          destruct (proj2 IH eq_refl eq_refl) as (-> & -> & ->).
          rewrite ?Hc, ?Hfw, ?Htid. repeat split; eauto. }
      destruct Hre as (Hc & Hfw & Htid & Hpos & Hbuf & Hfin).
      destruct (write_loop_session fuel E data (deadline t w) w (fst (reopen s)))
        as [[-> _]|(tid & -> & _)].
      * split; [rewrite Htid; intros [x Hx]; discriminate|auto].
      * cbn. split; [auto|discriminate].
Qed.

(** X6. A task id is held only by an open transport that has been
    flashed: in every state the object can be in, if there is a task id
    the transport is open and the firmware path is set. *)
Theorem task_id_needs_open_and_firmware (w : world) (s : session) (tid : string) :
  reachable any_remote w s -> task_id s = Some tid ->
  closed s = false /\ exists fw, firmware s = Some fw.
Proof.
  intros Hreach Htid.
  destruct (proj1 (reachable_shape _ _ _ Hreach)) as [Hc [fw Hfw]].
  - rewrite Htid. now eexists.
  - split; [exact Hc|now exists fw].
Qed.

(** X7. Every [write_transport] that returns, in any state the object
    can be in and whether or not a task existed before, leaves an open
    transport with a task id, the cursor at 0, an empty buffer and the
    finished flag clear. *)
Theorem write_transport_starts_afresh (fuel : nat) (E : remote) (data : bytes)
    (timeout_sec : option Z) (w w' : world) (s s' : session) :
  reachable any_remote w s ->
  write_transport fuel E data timeout_sec w s = (w', s', Returned tt) ->
  closed s' = false /\ (exists tid, task_id s' = Some tid)
  /\ readpos s' = 0 /\ readbuf s' = [] /\ finished s' = false.
Proof.
  intros Hreach Hrun.
  destruct (unusable s) eqn:Hok.
  { unfold write_transport in Hrun. rewrite Hok in Hrun. discriminate. }
  rewrite (write_transport_loop _ _ _ _ _ _ Hok) in Hrun.
  destruct (write_loop_returned _ _ _ _ _ _ _ _ _ Hrun) as (k & _ & _ & ->).
  cbn. unfold unusable in Hok. destruct (closed s) eqn:Hc; [discriminate|].
  destruct (task_id s) as [tid|] eqn:Htid.
  - rewrite (reopen_some s tid Htid). cbn [fst].
    destruct (reopened_fields s) as (-> & _ & -> & -> & -> & _).
    repeat split. now eexists.
  - rewrite (reopen_none s Htid). cbn [fst].
    destruct (proj2 (reachable_shape _ _ _ Hreach) Hc Htid) as (-> & -> & ->).
    rewrite Hc. repeat split. now eexists.
Qed.

(** ** Reading from the buffer *)

Lemma py_slice_portion (buf : bytes) (rp k lr : nat) :
  rp <= length buf -> lr <= k ->
  py_slice buf (Z.of_nat rp) (Z.of_nat rp + Z.of_nat k - Z.of_nat lr)
  = take (k - lr) (drop rp buf).
Proof.
  intros Hrp Hlr. unfold py_slice. rewrite slice_bound_nat.
  replace (Z.of_nat rp + Z.of_nat k - Z.of_nat lr)%Z with (Z.of_nat (rp + (k - lr)))
    by lia.
  rewrite slice_bound_nat.
  replace (Nat.min rp (length buf)) with rp by lia.
  destruct (Nat.le_gt_cases (rp + (k - lr)) (length buf)) as [Hfit|Hover].
  - f_equal. lia.
  - rewrite !take_ge; [reflexivity|rewrite length_drop; lia..].
Qed.

Lemma read_loop_last (fuel : nat) (E : remote) (k : nat) (end_time : option Z)
    (w w1 : world) (s s1 : session) :
  refresh E w s = (w1, s1) -> finished s1 = true -> 0 < k ->
  read_loop (S fuel) E (Z.of_nat k) end_time w s []
  = if length (readbuf s1) <=? readpos s1 then (w1, s1, Raised IoTimeoutError)
    else (w1,
          set_readpos
            (readpos s1 + length (take k (drop (readpos s1) (readbuf s1)))) s1,
          Returned (take k (drop (readpos s1) (readbuf s1)))).
Proof.
  intros Hrefresh Hfin Hk. cbn [read_loop]. rewrite Hrefresh. unfold consume.
  destruct (readpos s1 <? length (readbuf s1)) eqn:Hunread.
  - apply Nat.ltb_lt in Hunread.
    replace (length (readbuf s1) <=? readpos s1) with false
      by (symmetry; apply Nat.leb_gt; exact Hunread).
    cbn [length app].
    replace (Z.of_nat (readpos s1) + Z.of_nat k - Z.of_nat 0)%Z
      with (Z.of_nat (readpos s1) + Z.of_nat k - Z.of_nat 0%nat)%Z by reflexivity.
    rewrite (py_slice_portion (readbuf s1) (readpos s1) k 0) by lia.
    rewrite Nat.sub_0_r.
    set (portion := take k (drop (readpos s1) (readbuf s1))).
    assert (Hlen : 0 < length portion <= k).
    { unfold portion. rewrite length_take, length_drop. lia. }
    rewrite (result_of_short (Z.of_nat k) portion) by lia.
    cbn [finished set_readpos]. rewrite Hfin.
    destruct (Z.of_nat k <=? Z.of_nat (length portion))%Z; [reflexivity|].
    destruct (length portion =? 0) eqn:Hempty; [|reflexivity].
    apply Nat.eqb_eq in Hempty. lia.
  - apply Nat.ltb_ge in Hunread.
    replace (length (readbuf s1) <=? readpos s1) with true
      by (symmetry; apply Nat.leb_le; exact Hunread).
    cbn [length]. rewrite Hfin.
    destruct (Z.of_nat k <=? Z.of_nat 0)%Z eqn:Hfull; [|reflexivity].
    apply Z.leb_le in Hfull. lia.
Qed.

(** X8. Buffered bytes are served at once: on an open transport with a
    task id, a request of [k >= 1] bytes of which the buffer still holds
    at least [k] unread returns exactly the next [k] bytes of the buffer
    and advances the cursor by [k], whatever the timeout, without any
    request to the service and without sleeping. *)
Theorem read_transport_buffered (fuel : nat) (E : remote) (k : nat)
    (timeout_sec : option Z) (w : world) (s : session) (tid : string) :
  closed s = false -> task_id s = Some tid -> 0 < k ->
  readpos s + k <= length (readbuf s) ->
  read_transport (S fuel) E (Z.of_nat k) timeout_sec w s
  = (w, set_readpos (readpos s + k) s,
     Returned (take k (drop (readpos s) (readbuf s)))).
Proof.
  intros Hopen Htid Hk Hfit. unfold read_transport. rewrite Hopen, Htid.
  cbn [read_loop]. unfold refresh.
  replace (length (readbuf s) <=? readpos s) with false
    by (symmetry; apply Nat.leb_gt; lia).
  cbn [andb]. unfold consume.
  replace (readpos s <? length (readbuf s)) with true
    by (symmetry; apply Nat.ltb_lt; lia).
  cbn [length app].
  rewrite (py_slice_portion (readbuf s) (readpos s) k 0) by lia.
  rewrite Nat.sub_0_r.
  assert (Hlen : length (take k (drop (readpos s) (readbuf s))) = k)
    by (rewrite length_take, length_drop; lia).
  rewrite Hlen, result_of_short by lia.
  destruct (Z.of_nat k <=? Z.of_nat k)%Z eqn:Hfull; [reflexivity|].
  apply Z.leb_gt in Hfull. lia.
Qed.

(** X9. Once the task is known to be finished, [read_transport] never
    asks the service again: a request of [k >= 1] bytes raises
    [IoTimeoutError], leaving the object as it is, when the buffer has no
    unread byte, and otherwise returns the next [k] unread bytes, or all
    of them if they are fewer, advancing the cursor by as many. *)
Theorem read_transport_after_finish (fuel : nat) (E : remote) (k : nat)
    (timeout_sec : option Z) (w : world) (s : session) (tid : string) :
  closed s = false -> task_id s = Some tid -> finished s = true -> 0 < k ->
  read_transport (S fuel) E (Z.of_nat k) timeout_sec w s
  = if length (readbuf s) <=? readpos s then (w, s, Raised IoTimeoutError)
    else (w,
          set_readpos
            (readpos s + length (take k (drop (readpos s) (readbuf s)))) s,
          Returned (take k (drop (readpos s) (readbuf s)))).
Proof.
  intros Hopen Htid Hfin Hk. unfold read_transport. rewrite Hopen, Htid.
  apply read_loop_last; [now apply refresh_finished|exact Hfin|exact Hk].
Qed.

(** X10. Round trip.  On an open transport with a task id whose buffer
    is used up, if the first status reply reports the task finished with
    output [O], a request of [k >= 1] bytes makes that one request, and
    returns the bytes of [O] from the cursor on, [k] of them or all if
    they are fewer; it raises [IoTimeoutError] when [O] has no byte beyond
    the cursor.  With the cursor at 0 that is: [O] itself when [k] is its
    length, a short read when [k] is larger, a timeout when [O] is
    empty. *)
Theorem read_transport_first_poll (fuel : nat) (E : remote) (k : nat)
    (timeout_sec : option Z) (w : world) (s : session) (tid : string) (O : bytes) :
  closed s = false -> task_id s = Some tid -> finished s = false ->
  length (readbuf s) <= readpos s -> 0 < k ->
  get_reply E (gets w) (mkGetRequest (url s) (task_id s))
  = mkGetResponse 200 (JsonObject (Some (PyStr "finished")) (OutDecoded O)) ->
  read_transport (S fuel) E (Z.of_nat k) timeout_sec w s
  = if length O <=? readpos s
    then (after_get E w, set_readbuf O (set_finished true s), Raised IoTimeoutError)
    else (after_get E w,
          set_readpos (readpos s + length (take k (drop (readpos s) O)))
                      (set_readbuf O (set_finished true s)),
          Returned (take k (drop (readpos s) O))).
Proof.
  intros Hopen Htid Hfin Hused Hk Hreply. unfold read_transport.
  rewrite Hopen. destruct (task_id s) as [tid'|] eqn:Htid'; [|discriminate].
  rewrite (read_loop_last fuel E k (deadline timeout_sec w) w (after_get E w) s
             (set_readbuf O (set_finished true s))); [reflexivity| |reflexivity|exact Hk].
  unfold refresh. rewrite Hfin.
  replace (length (readbuf s) <=? readpos s) with true
    by (symmetry; apply Nat.leb_le; exact Hused).
  cbn [andb negb]. rewrite Htid', Hreply. reflexivity.
Qed.

(** ** Reading against a deadline *)

Lemma refresh_now (E : remote) (w : world) (s : session) :
  (forall k, (0 <= get_time E k)%Z) ->
  (now w <= now (fst (refresh E w s)))%Z.
Proof.
  intros Hpos. unfold refresh.
  destruct ((length (readbuf s) <=? readpos s) && negb (finished s)); [|cbn; lia].
  pose proof (Hpos (gets w)).
  destruct (get_status_code _ =? 200)%Z; cbn; lia.
Qed.

Lemma read_loop_terminates (E : remote) (n e : Z) :
  (forall k, (0 <= get_time E k)%Z) ->
  forall fuel w s ret,
    (e - now w < 500 * Z.of_nat fuel)%Z ->
    snd (read_loop (S fuel) E n (Some e) w s ret) <> OutOfFuel.
Proof.
  intros Hpos. induction fuel as [|fuel IH]; intros w s ret Hbound.
  - cbn [read_loop]. pose proof (refresh_now E w s Hpos) as Hnow.
    destruct (refresh E w s) as [w1 s1]. cbn [fst] in Hnow.
    destruct (consume n s1 ret) as [s2 ret2].
    destruct (n <=? Z.of_nat (length ret2))%Z; [discriminate|].
    destruct (finished s2); [destruct (length ret2 =? 0); discriminate|].
    unfold expired. destruct (e <? now w1)%Z eqn:Hlate; [discriminate|].
    apply Z.ltb_ge in Hlate. exfalso. lia.
  - change (read_loop (S (S fuel)) E n (Some e) w s ret)
      with (let '(w1, s1) := refresh E w s in
            let '(s2, ret2) := consume n s1 ret in
            if (n <=? Z.of_nat (length ret2))%Z
            then (w1, s2, Returned (result_of n ret2))
            else if finished s2 then
              if length ret2 =? 0 then (w1, s2, Raised IoTimeoutError)
              else (w1, s2, Returned (result_of n ret2))
            else if expired (Some e) (now w1) then (w1, s2, Raised IoTimeoutError)
            else read_loop (S fuel) E n (Some e) (sleep w1) s2 ret2).
    pose proof (refresh_now E w s Hpos) as Hnow.
    destruct (refresh E w s) as [w1 s1]. cbn [fst] in Hnow.
    destruct (consume n s1 ret) as [s2 ret2].
    destruct (n <=? Z.of_nat (length ret2))%Z; [discriminate|].
    destruct (finished s2); [destruct (length ret2 =? 0); discriminate|].
    destruct (expired (Some e) (now w1)); [discriminate|].
    apply IH. unfold sleep. cbn [now]. lia.
Qed.

(** X11. A [read_transport] with a timeout of [t] ms ends within
    [t / 500 + 2] iterations, by returning or raising, whatever the
    service answers, provided its requests take no negative time. *)
Theorem read_transport_terminates (fuel : nat) (E : remote) (n t : Z)
    (w : world) (s : session) :
  (forall k, (0 <= get_time E k)%Z) ->
  (t < 500 * Z.of_nat fuel)%Z ->
  snd (read_transport (S fuel) E n (Some t) w s) <> OutOfFuel.
Proof.
  intros Hpos Hbound. unfold read_transport.
  destruct (closed s); [discriminate|].
  destruct (task_id s); [|discriminate].
  cbn [deadline]. apply read_loop_terminates; [exact Hpos|lia].
Qed.

Lemma read_loop_raise (fuel : nat) (E : remote) (n : Z) (end_time : option Z) :
  forall w s ret w' s' e,
    read_loop fuel E n end_time w s ret = (w', s', Raised e) ->
    e = IoTimeoutError /\ (end_time = None -> finished s' = true).
Proof.
  induction fuel as [|fuel IH]; intros w s ret w' s' e; cbn [read_loop].
  - discriminate.
  - destruct (refresh E w s) as [w1 s1].
    destruct (consume n s1 ret) as [s2 ret2].
    destruct (n <=? Z.of_nat (length ret2))%Z; [discriminate|].
    destruct (finished s2) eqn:Hfin.
    + destruct (length ret2 =? 0); [|discriminate].
      intros [= <- <- <-]. now split.
    + destruct (expired end_time (now w1)) eqn:Hlate.
      * intros [= <- <- <-]. split; [reflexivity|].
        intros ->. discriminate.
      * apply IH.
Qed.

(** X12. An [IoTimeoutError] of [read_transport] that comes with the
    finished flag set has taken nothing from the buffer: the cursor is
    where it was before the call.  Without a timeout [IoTimeoutError] is
    raised in no other case. *)
Theorem read_transport_failure (fuel : nat) (E : remote) (n : Z)
    (timeout_sec : option Z) (w w' : world) (s s' : session) :
  read_transport fuel E n timeout_sec w s = (w', s', Raised IoTimeoutError) ->
  (finished s' = true -> readpos s' = readpos s)
  /\ (timeout_sec = None -> finished s' = true /\ readpos s' = readpos s).
Proof.
  unfold read_transport. destruct (closed s); [discriminate|].
  destruct (task_id s); [|discriminate]. intros Hrun.
  destruct (read_loop_raise _ _ _ _ _ _ _ _ _ _ Hrun) as [_ Hnone].
  assert (Hkeep : finished s' = true -> readpos s' = readpos s)
    by (intros Hfin; exact (proj2 (read_loop_advance _ _ _ _ _ _ _ _ _ _ Hrun Hfin))).
  split; [exact Hkeep|].
  intros ->. split; [now apply Hnone|]. apply Hkeep. now apply Hnone.
Qed.

(** ** Delivery in order *)

Lemma take_length_take (l : bytes) (d : nat) :
  take (length (take d l)) l = take d l.
Proof.
  rewrite length_take.
  destruct (Nat.le_gt_cases d (length l)) as [Hle|Hgt].
  - now replace (Nat.min d (length l)) with d by lia.
  - replace (Nat.min d (length l)) with (length l) by lia.
    rewrite !take_ge; [reflexivity|lia..].
Qed.

Lemma prefix_portion (x y : bytes) (rp d : nat) :
  x `prefix_of` y -> rp <= length x ->
  take d (drop rp x) = take (length (take d (drop rp x))) (drop rp y).
Proof.
  intros [z ->] Hrp. rewrite drop_app_le by exact Hrp.
  rewrite take_app_le by (rewrite length_take; lia).
  now rewrite take_length_take.
Qed.

Lemma prefix_consistent_refresh (E : remote) (w : world) (s : session) (O : bytes) :
  prefix_consistent E w s O ->
  prefix_consistent E (fst (refresh E w s)) (snd (refresh E w s)) O.
Proof.
  intros [Hbuf Hpolls].
  destruct (refresh_fields E w s) as (Hurl & Htid & _ & _).
  assert (Hlater : forall i b, gets (fst (refresh E w s)) <= i ->
            polled E (snd (refresh E w s)) i = Some b -> b `prefix_of` O).
  { intros i b Hi. unfold polled. rewrite Hurl, Htid. apply Hpolls.
    destruct (refresh_config E w s) as (_ & _ & _ & _ & _ & Hgets). lia. }
  split; [|exact Hlater].
  destruct (refresh_readbuf E w s) as [[_ ->]|[_ ->]]; [exact Hbuf|].
  destruct (polled E s (gets w)) as [b|] eqn:Hpoll; cbn; [|exact Hbuf].
  exact (Hpolls (gets w) b (Nat.le_refl _) Hpoll).
Qed.

Lemma read_loop_in_order (fuel : nat) (E : remote) (k : nat) (end_time : option Z)
    (O : bytes) (p0 : nat) :
  forall w s ret w' s' r,
    prefix_consistent E w s O ->
    ret = take (length ret) (drop p0 O) ->
    readpos s = p0 + length ret ->
    length ret <= k ->
    read_loop fuel E (Z.of_nat k) end_time w s ret = (w', s', Returned r) ->
    r = take (length r) (drop p0 O)
    /\ readpos s' = p0 + length r
    /\ prefix_consistent E w' s' O.
Proof.
  induction fuel as [|fuel IH]; intros w s ret w' s' r Hcons Hret Hpos Hlen;
    cbn [read_loop]; [discriminate|].
  pose proof (prefix_consistent_refresh E w s O Hcons) as Hcons1.
  destruct (refresh_fields E w s) as (_ & _ & _ & Hpos1).
  destruct (refresh E w s) as [w1 s1]. cbn [fst snd] in *.
  assert (Hstep : let s2 := fst (consume (Z.of_nat k) s1 ret) in
                  let ret2 := snd (consume (Z.of_nat k) s1 ret) in
                  ret2 = take (length ret2) (drop p0 O)
                  /\ readpos s2 = p0 + length ret2
                  /\ length ret2 <= k
                  /\ prefix_consistent E w1 s2 O).
  { unfold consume. destruct (readpos s1 <? length (readbuf s1)) eqn:Hunread;
      cbn [fst snd]; [|rewrite Hpos1; auto].
    apply Nat.ltb_lt in Hunread.
    rewrite (py_slice_portion (readbuf s1) (readpos s1) k (length ret)) by lia.
    set (portion := take (k - length ret) (drop (readpos s1) (readbuf s1))).
    assert (Hportion : portion = take (length portion) (drop (p0 + length ret) O)).
    { unfold portion. rewrite <- Hpos, <- Hpos1.
      apply prefix_portion; [apply Hcons1|lia]. }
    assert (Hshort : length portion <= k - length ret)
      by (unfold portion; rewrite length_take; lia).
    rewrite length_app. cbn [readpos set_readpos].
    split; [|split; [lia|split; [lia|exact Hcons1]]].
    rewrite Hret at 1. rewrite Hportion at 1.
    rewrite <- (drop_drop O (length ret) p0). apply take_take_drop. }
  destruct (consume (Z.of_nat k) s1 ret) as [s2 ret2]. cbn [fst snd] in Hstep.
  destruct Hstep as (Hret2 & Hpos2 & Hlen2 & Hcons2).
  assert (Hout : result_of (Z.of_nat k) ret2 = ret2)
    by (apply result_of_short; lia).
  destruct (Z.of_nat k <=? Z.of_nat (length ret2))%Z.
  - intros [= <- <- <-]. rewrite Hout. auto.
  - destruct (finished s2).
    + destruct (length ret2 =? 0); [discriminate|].
      intros [= <- <- <-]. rewrite Hout. auto.
    + destruct (expired end_time (now w1)); [discriminate|].
      apply IH; auto.
Qed.

(** X13. Output is delivered in order, without gap or repetition.  If
    the buffer and every snapshot the service yields from now on are
    beginnings of one output [O], the bytes a [read_transport] returns are
    exactly those of [O] that follow the cursor, the cursor advances by
    their number, and the same holds for the next call. *)
Theorem read_transport_in_order (fuel : nat) (E : remote) (k : nat)
    (timeout_sec : option Z) (w w' : world) (s s' : session) (O r : bytes) :
  prefix_consistent E w s O ->
  read_transport fuel E (Z.of_nat k) timeout_sec w s = (w', s', Returned r) ->
  r = take (length r) (drop (readpos s) O)
  /\ readpos s' = readpos s + length r
  /\ prefix_consistent E w' s' O.
Proof.
  intros Hcons. unfold read_transport.
  destruct (closed s); [discriminate|].
  destruct (task_id s); [|discriminate].
  apply read_loop_in_order; [exact Hcons|reflexivity|cbn; lia|cbn; lia].
Qed.

(** ** The order of the calls *)

(** X14. Opening and closing gate each other.  From a closed transport
    [open_transport] returns the timeouts, all zero; once it is open, a
    second [open_transport] and a [flash] both raise
    [CITransportUsageError] and change nothing; after [close_transport]
    both [open_transport] and [flash] are accepted again. *)
Theorem lifecycle_gates (o : option (gmap string pyval)) (s : session) :
  closed s = true ->
  snd (open_transport o s) = Returned (mkTransportTimeouts 0 0 0)
  /\ (forall o',
        open_transport o' (fst (open_transport o s))
        = (fst (open_transport o s), Raised CITransportUsageError))
  /\ (forall cwd o',
        flash cwd o' (fst (open_transport o s))
        = (fst (open_transport o s), Raised CITransportUsageError))
  /\ (forall o',
        snd (open_transport o' (fst (close_transport (fst (open_transport o s)))))
        = Returned (mkTransportTimeouts 0 0 0))
  /\ (forall cwd o',
        snd (flash cwd o' (fst (close_transport (fst (open_transport o s)))))
        = Returned tt).
Proof.
  intros Hc.
  assert (Hret : snd (open_transport o s) = Returned (mkTransportTimeouts 0 0 0))
    by (unfold open_transport; rewrite Hc; reflexivity).
  assert (Hopen : closed (fst (open_transport o s)) = false)
    by (unfold open_transport; rewrite Hc; reflexivity).
  split; [exact Hret|]. clear Hret.
  generalize dependent (fst (open_transport o s)). intros s1 Hopen.
  split; [|split; [|split]].
  - intros o'. unfold open_transport. now rewrite Hopen.
  - intros cwd o'. unfold flash. now rewrite Hopen.
  - intros o'. reflexivity.
  - intros cwd o'. reflexivity.
Qed.

Lemma run_keeps_no_firmware (fuel : nat) (E : remote) (c : call) (w : world)
    (s : session) :
  is_flash c = false -> firmware s = None ->
  firmware (snd (run fuel E c w s)) = None.
Proof.
  intros Hc Hfw. destruct c as [cwd o|o| |n t|data t]; cbn [run snd fst].
  - discriminate.
  - unfold open_transport. destruct (closed s); cbn [negb fst]; [|exact Hfw].
    cbn. rewrite (proj2 (proj2 (proj2 (proj2 (proj2 (_set_options_keeps o s)))))).
    exact Hfw.
  - exact Hfw.
  - unfold read_transport. destruct (closed s); [exact Hfw|].
    destruct (task_id s); [|exact Hfw].
    destruct (read_loop_frame fuel E n (deadline t w) w s []) as (Hcfg & _).
    destruct Hcfg as (_ & _ & _ & _ & _ & _ & ->). exact Hfw.
  - unfold write_transport, unusable. rewrite Hfw, orb_true_r. exact Hfw.
Qed.

Lemma exec_keeps_no_firmware (cs : list (nat * remote * call)) :
  flashless cs ->
  forall w s, firmware s = None -> firmware (snd (exec cs w s)) = None.
Proof.
  induction 1 as [|[[fuel E] c] cs Hc Hcs IH]; intros w s Hfw; [exact Hfw|].
  cbn [exec]. pose proof (run_keeps_no_firmware fuel E c w s Hc Hfw) as Hstep.
  destruct (run fuel E c w s) as [w1 s1]. now apply IH.
Qed.

(** X15. Nothing can be written before a [flash]: after any sequence of
    calls on a new object in which no call is a [flash], every
    [write_transport] raises [TransportClosedError], makes no request and
    changes nothing. *)
Theorem write_transport_needs_flash (cs : list (nat * remote * call))
    (o : option (gmap string pyval)) (w w' : world) (fuel : nat) (E : remote)
    (data : bytes) (timeout_sec : option Z) :
  flashless cs ->
  write_transport fuel E data timeout_sec w' (snd (exec cs w (init o)))
  = (w', snd (exec cs w (init o)), Raised TransportClosedError).
Proof.
  intros Hcs.
  assert (Hfw : firmware (snd (exec cs w (init o))) = None).
  { apply exec_keeps_no_firmware; [exact Hcs|]. unfold init. reflexivity. }
  unfold write_transport, unusable. now rewrite Hfw, orb_true_r.
Qed.

(** ** Where the changes of the object come from *)

Lemma refresh_cause (E : remote) (w : world) (s : session) :
  (finished (snd (refresh E w s)) = true ->
     finished s = true
     \/ (gets (fst (refresh E w s)) = S (gets w)
         /\ reported_finished
              (get_reply E (gets w) (mkGetRequest (url s) (task_id s))) = true))
  /\ (readbuf (snd (refresh E w s)) = readbuf s
      \/ (gets (fst (refresh E w s)) = S (gets w)
          /\ polled E s (gets w) = Some (readbuf (snd (refresh E w s))))).
Proof.
  unfold refresh, polled, snapshot, reported_finished.
  destruct ((length (readbuf s) <=? readpos s) && negb (finished s));
    [|cbn; auto].
  destruct (get_status_code _ =? 200)%Z; [|cbn; auto]. cbn [fst snd andb].
  destruct (get_json _) as [|[st|] out]; cbn [absorb]; [auto| |auto].
  destruct (is_finished_status st), out; cbn; auto.
Qed.

Lemma read_loop_cause (fuel : nat) (E : remote) (n : Z) (end_time : option Z) :
  forall w s ret,
    (finished (snd (fst (read_loop fuel E n end_time w s ret))) = true ->
       finished s = true
       \/ exists i, gets w <= i < gets (fst (fst (read_loop fuel E n end_time w s ret)))
            /\ reported_finished
                 (get_reply E i (mkGetRequest (url s) (task_id s))) = true)
    /\ (readbuf (snd (fst (read_loop fuel E n end_time w s ret))) = readbuf s
        \/ exists i, gets w <= i < gets (fst (fst (read_loop fuel E n end_time w s ret)))
             /\ polled E s i
                = Some (readbuf (snd (fst (read_loop fuel E n end_time w s ret))))).
Proof.
  induction fuel as [|fuel IH]; intros w s ret; cbn [read_loop]; [cbn; auto|].
  destruct (refresh_cause E w s) as [Hfin1 Hbuf1].
  destruct (refresh_config E w s) as (Hcfg & Htid & _ & _ & _ & Hgets).
  destruct Hcfg as (Hurl & _).
  destruct (refresh E w s) as [w1 s1]. cbn [fst snd] in *.
  pose proof (consume_finished n s1 ret) as Hfin2.
  destruct (consume_fields n s1 ret) as (Hurl2 & Htid2 & _ & Hbuf2).
  destruct (consume n s1 ret) as [s2 ret2]. cbn [fst snd] in *.
  assert (Hhere : (finished s2 = true ->
                     finished s = true
                     \/ exists i, gets w <= i < gets w1
                          /\ reported_finished
                               (get_reply E i (mkGetRequest (url s) (task_id s))) = true)
                  /\ (readbuf s2 = readbuf s
                      \/ exists i, gets w <= i < gets w1
                           /\ polled E s i = Some (readbuf s2))).
  { split.
    - rewrite Hfin2. intros Hf. destruct (Hfin1 Hf) as [?|[Hg Hr]]; [now left|].
      right. exists (gets w). split; [lia|exact Hr].
    - rewrite Hbuf2. destruct Hbuf1 as [?|[Hg Hp]]; [now left|].
      right. exists (gets w). split; [lia|exact Hp]. }
  destruct (n <=? Z.of_nat (length ret2))%Z; [exact Hhere|].
  destruct (finished s2) eqn:Hf2;
    [destruct (length ret2 =? 0); cbn [fst snd]; rewrite Hf2; exact Hhere|].
  destruct (expired end_time (now w1));
    [cbn [fst snd]; rewrite Hf2; exact Hhere|].
  destruct (IH (sleep w1) s2 ret2) as [Hfin3 Hbuf3].
  destruct (read_loop_frame fuel E n end_time (sleep w1) s2 ret2)
    as (_ & _ & _ & _ & _ & Hgets3).
  cbn [sleep gets] in Hfin3, Hbuf3, Hgets3.
  assert (Hreq : mkGetRequest (url s2) (task_id s2) = mkGetRequest (url s) (task_id s))
    by (f_equal; congruence).
  unfold polled in *. rewrite Hreq in Hfin3, Hbuf3.
  destruct Hhere as [_ Hbuf]. split.
  - intros Hf. destruct (Hfin3 Hf) as [?|(i & Hi & Hr)]; [congruence|].
    right. exists i. split; [lia|exact Hr].
  - destruct Hbuf3 as [Heq|(i & Hi & Hp)].
    + rewrite Heq. destruct Hbuf as [?|(i & Hi & Hp)]; [now left|].
      right. exists i. split; [lia|exact Hp].
    + right. exists i. split; [lia|exact Hp].
Qed.

(** X16. [read_transport] takes the task to be finished, and replaces
    its buffer, only on the word of the service: if the finished flag is
    set after a call and was not before, one of the status requests of
    that call was answered with code 200 and status ['finished']; and the
    buffer after the call is the buffer before it or the decoded output
    of one of those replies.  Replies with another code, an unparseable
    body or no status are ignored. *)
Theorem read_transport_cause (fuel : nat) (E : remote) (n : Z)
    (timeout_sec : option Z) (w : world) (s : session) :
  (finished (snd (fst (read_transport fuel E n timeout_sec w s))) = true ->
     finished s = true
     \/ exists i,
          gets w <= i < gets (fst (fst (read_transport fuel E n timeout_sec w s)))
          /\ reported_finished
               (get_reply E i (mkGetRequest (url s) (task_id s))) = true)
  /\ (readbuf (snd (fst (read_transport fuel E n timeout_sec w s))) = readbuf s
      \/ exists i,
           gets w <= i < gets (fst (fst (read_transport fuel E n timeout_sec w s)))
           /\ polled E s i
              = Some (readbuf (snd (fst (read_transport fuel E n timeout_sec w s))))).
Proof.
  unfold read_transport.
  destruct (closed s); [cbn; auto|].
  destruct (task_id s) eqn:Htid; [|cbn; auto].
  rewrite <- Htid. apply read_loop_cause.
Qed.

(** ** The further properties at concrete inputs *)

Lemma started_any_reachable :
  reachable any_remote (fst Scenario.started) (snd Scenario.started).
Proof. apply started_reachable. Qed.

Lemma drained_any_reachable :
  reachable any_remote (fst Scenario.drained) (snd Scenario.drained).
Proof.
  exact (reachable_weaken grow_only any_remote (fun _ _ _ _ => I) _ _ drained_reachable).
Qed.

Lemma reopen_keeps_configuration_witness :
  reachable any_remote (fst Scenario.drained) (snd Scenario.drained)
  /\ firmware (reopened (snd Scenario.drained)) = Some "/proj/build/zephyr/zephyr.hex"
  /\ readpos (reopened (snd Scenario.drained)) = 0.
Proof.
  split; [exact drained_any_reachable|].
  rewrite (reopen_keeps_configuration (fst Scenario.drained) (snd Scenario.drained)
             drained_any_reachable).
  split; [vm_compute; reflexivity|reflexivity].
Defined.

Lemma write_transport_frame_witness :
  reachable any_remote (fst Scenario.started) (snd Scenario.started)
  /\ gets (fst (fst (write_transport 3 Scenario.refusing Scenario.abc None
                       (fst Scenario.started) (snd Scenario.started))))
     = gets (fst Scenario.started).
Proof.
  split; [exact started_any_reachable|].
  exact (proj1 (proj2 (proj2 (write_transport_frame 3 Scenario.refusing Scenario.abc
                                None (fst Scenario.started) (snd Scenario.started)
                                started_any_reachable)))).
Defined.

Lemma task_id_needs_open_and_firmware_witness :
  reachable any_remote (fst Scenario.started) (snd Scenario.started)
  /\ task_id (snd Scenario.started) = Some "task-1"
  /\ closed (snd Scenario.started) = false
  /\ exists fw, firmware (snd Scenario.started) = Some fw.
Proof.
  assert (Htid : task_id (snd Scenario.started) = Some "task-1")
    by (vm_compute; reflexivity).
  split; [exact started_any_reachable|]. split; [exact Htid|].
  exact (task_id_needs_open_and_firmware (fst Scenario.started) (snd Scenario.started)
           "task-1" started_any_reachable Htid).
Defined.

Lemma write_transport_starts_afresh_witness :
  reachable any_remote (fst Scenario.drained) (snd Scenario.drained)
  /\ readpos (snd Scenario.drained) = 3
  /\ readpos (snd (fst (write_transport 1 Scenario.accepting_again Scenario.abc None
                          (fst Scenario.drained) (snd Scenario.drained)))) = 0.
Proof.
  split; [exact drained_any_reachable|]. split; [vm_compute; reflexivity|].
  destruct (write_transport 1 Scenario.accepting_again Scenario.abc None
              (fst Scenario.drained) (snd Scenario.drained))
    as [[w' s'] out] eqn:Hrun.
  assert (Hout : out = Returned tt).
  { change out with (snd (w', s', out)). rewrite <- Hrun. vm_compute. reflexivity. }
  subst out.
  exact (proj1 (proj2 (proj2 (write_transport_starts_afresh 1 Scenario.accepting_again
                                Scenario.abc None (fst Scenario.drained) w'
                                (snd Scenario.drained) s' drained_any_reachable Hrun)))).
Defined.

Lemma read_transport_buffered_witness :
  closed (snd Further.one_read) = false
  /\ task_id (snd Further.one_read) = Some "task-1"
  /\ 0 < 2
  /\ readpos (snd Further.one_read) + 2 <= length (readbuf (snd Further.one_read))
  /\ snd (read_transport 1 Scenario.refusing 2 (Some (-5)%Z)
            (fst Further.one_read) (snd Further.one_read))
     = Returned [Byte.x62; Byte.x63].
Proof.
  assert (Hopen : closed (snd Further.one_read) = false) by (vm_compute; reflexivity).
  assert (Htid : task_id (snd Further.one_read) = Some "task-1")
    by (vm_compute; reflexivity).
  assert (Hk : 0 < 2) by lia.
  assert (Hfit : readpos (snd Further.one_read) + 2
                 <= length (readbuf (snd Further.one_read)))
    by (vm_compute; lia).
  split; [exact Hopen|]. split; [exact Htid|]. split; [exact Hk|].
  split; [exact Hfit|].
  change 2%Z with (Z.of_nat 2).
  rewrite (read_transport_buffered 0 Scenario.refusing 2 (Some (-5)%Z)
             (fst Further.one_read) (snd Further.one_read) "task-1"
             Hopen Htid Hk Hfit).
  vm_compute. reflexivity.
Defined.

Lemma read_transport_after_finish_witness :
  closed (snd Scenario.drained) = false
  /\ task_id (snd Scenario.drained) = Some "task-1"
  /\ finished (snd Scenario.drained) = true
  /\ 0 < 4
  /\ read_transport 1 Scenario.done_abcde 4 None
       (fst Scenario.drained) (snd Scenario.drained)
     = (fst Scenario.drained, snd Scenario.drained, Raised IoTimeoutError).
Proof.
  assert (Hopen : closed (snd Scenario.drained) = false) by (vm_compute; reflexivity).
  assert (Htid : task_id (snd Scenario.drained) = Some "task-1")
    by (vm_compute; reflexivity).
  assert (Hfin : finished (snd Scenario.drained) = true) by (vm_compute; reflexivity).
  assert (Hk : 0 < 4) by lia.
  split; [exact Hopen|]. split; [exact Htid|]. split; [exact Hfin|].
  split; [exact Hk|].
  change 4%Z with (Z.of_nat 4).
  rewrite (read_transport_after_finish 0 Scenario.done_abcde 4 None
             (fst Scenario.drained) (snd Scenario.drained) "task-1"
             Hopen Htid Hfin Hk).
  replace (length (readbuf (snd Scenario.drained)) <=? readpos (snd Scenario.drained))
    with true by (vm_compute; reflexivity).
  reflexivity.
Defined.

Lemma read_transport_first_poll_witness :
  closed (snd Scenario.started) = false
  /\ task_id (snd Scenario.started) = Some "task-1"
  /\ finished (snd Scenario.started) = false
  /\ length (readbuf (snd Scenario.started)) <= readpos (snd Scenario.started)
  /\ 0 < 3
  /\ snd (read_transport 1 Scenario.done_abc 3 None
            (fst Scenario.started) (snd Scenario.started))
     = Returned Scenario.abc.
Proof.
  assert (Hopen : closed (snd Scenario.started) = false) by (vm_compute; reflexivity).
  assert (Htid : task_id (snd Scenario.started) = Some "task-1")
    by (vm_compute; reflexivity).
  assert (Hfin : finished (snd Scenario.started) = false) by (vm_compute; reflexivity).
  assert (Hused : length (readbuf (snd Scenario.started))
                  <= readpos (snd Scenario.started)) by (vm_compute; lia).
  assert (Hk : 0 < 3) by lia.
  split; [exact Hopen|]. split; [exact Htid|]. split; [exact Hfin|].
  split; [exact Hused|]. split; [exact Hk|].
  change 3%Z with (Z.of_nat 3).
  rewrite (read_transport_first_poll 0 Scenario.done_abc 3 None
             (fst Scenario.started) (snd Scenario.started) "task-1" Scenario.abc
             Hopen Htid Hfin Hused Hk eq_refl).
  vm_compute. reflexivity.
Defined.

Lemma read_transport_terminates_witness :
  (forall k, (0 <= get_time Scenario.running_abc k)%Z)
  /\ (100 < 500 * Z.of_nat 1)%Z
  /\ snd (read_transport 2 Scenario.running_abc 10 (Some 100%Z)
            (fst Scenario.started) (snd Scenario.started)) <> OutOfFuel.
Proof.
  assert (Hpos : forall k, (0 <= get_time Scenario.running_abc k)%Z)
    by (intros k; cbn; lia).
  assert (Hbound : (100 < 500 * Z.of_nat 1)%Z) by lia.
  split; [exact Hpos|]. split; [exact Hbound|].
  exact (read_transport_terminates 1 Scenario.running_abc 10 100
           (fst Scenario.started) (snd Scenario.started) Hpos Hbound).
Defined.

Lemma read_transport_failure_witness :
  read_transport 1 Scenario.done_silent 10 None
    (fst Scenario.started) (snd Scenario.started)
  = (after_get Scenario.done_silent (fst Scenario.started),
     set_finished true (snd Scenario.started), Raised IoTimeoutError)
  /\ finished (set_finished true (snd Scenario.started)) = true
  /\ readpos (set_finished true (snd Scenario.started))
     = readpos (snd Scenario.started).
Proof.
  assert (Hrun : read_transport 1 Scenario.done_silent 10 None
                   (fst Scenario.started) (snd Scenario.started)
                 = (after_get Scenario.done_silent (fst Scenario.started),
                    set_finished true (snd Scenario.started), Raised IoTimeoutError))
    by (vm_compute; reflexivity).
  split; [exact Hrun|].
  exact (proj2 (read_transport_failure 1 Scenario.done_silent 10 None
                  (fst Scenario.started) _ (snd Scenario.started) _ Hrun) eq_refl).
Defined.

Lemma done_abc_prefix_consistent :
  prefix_consistent Scenario.done_abc (fst Scenario.started) (snd Scenario.started)
    Scenario.abc.
Proof.
  split.
  - replace (readbuf (snd Scenario.started)) with (@nil Byte.byte)
      by (vm_compute; reflexivity).
    apply prefix_nil.
  - intros i b _ [= <-]. reflexivity.
Qed.

Lemma read_transport_in_order_witness :
  prefix_consistent Scenario.done_abc (fst Scenario.started) (snd Scenario.started)
    Scenario.abc
  /\ read_transport 1 Scenario.done_abc 2 None
       (fst Scenario.started) (snd Scenario.started)
     = (after_get Scenario.done_abc (fst Scenario.started),
        set_readpos 2 (set_readbuf Scenario.abc (set_finished true (snd Scenario.started))),
        Returned [Byte.x61; Byte.x62])
  /\ [Byte.x61; Byte.x62]
     = take (length [Byte.x61; Byte.x62])
            (drop (readpos (snd Scenario.started)) Scenario.abc).
Proof.
  assert (Hrun : read_transport 1 Scenario.done_abc (Z.of_nat 2) None
                   (fst Scenario.started) (snd Scenario.started)
                 = (after_get Scenario.done_abc (fst Scenario.started),
                    set_readpos 2 (set_readbuf Scenario.abc
                                     (set_finished true (snd Scenario.started))),
                    Returned [Byte.x61; Byte.x62]))
    by (vm_compute; reflexivity).
  split; [exact done_abc_prefix_consistent|]. split; [exact Hrun|].
  exact (proj1 (read_transport_in_order 1 Scenario.done_abc 2 None
                  (fst Scenario.started) _ (snd Scenario.started) _ Scenario.abc _
                  done_abc_prefix_consistent Hrun)).
Defined.

Lemma lifecycle_gates_witness :
  closed (init None) = true
  /\ open_transport None (fst (open_transport None (init None)))
     = (fst (open_transport None (init None)), Raised CITransportUsageError).
Proof.
  assert (Hc : closed (init None) = true) by reflexivity.
  split; [exact Hc|].
  exact (proj1 (proj2 (lifecycle_gates None (init None) Hc)) None).
Defined.

Lemma unflashed_flashless : flashless Further.unflashed.
Proof. unfold flashless, Further.unflashed. repeat constructor. Qed.

Lemma write_transport_needs_flash_witness :
  flashless Further.unflashed
  /\ snd (write_transport 1 Scenario.accepting Scenario.abc None Scenario.dawn
            (snd (exec Further.unflashed Scenario.dawn (init None))))
     = Raised TransportClosedError.
Proof.
  split; [exact unflashed_flashless|].
  rewrite (write_transport_needs_flash Further.unflashed None Scenario.dawn
             Scenario.dawn 1 Scenario.accepting Scenario.abc None unflashed_flashless).
  reflexivity.
Defined.

Lemma read_transport_cause_witness :
  finished (snd Scenario.started) = false
  /\ finished (snd (fst (read_transport 1 Scenario.done_abc 3 None
                           (fst Scenario.started) (snd Scenario.started)))) = true
  /\ exists i,
       reported_finished
         (get_reply Scenario.done_abc i
            (mkGetRequest (url (snd Scenario.started)) (task_id (snd Scenario.started))))
       = true.
Proof.
  assert (Hbefore : finished (snd Scenario.started) = false)
    by (vm_compute; reflexivity).
  assert (Hafter : finished (snd (fst (read_transport 1 Scenario.done_abc 3 None
                      (fst Scenario.started) (snd Scenario.started)))) = true)
    by (vm_compute; reflexivity).
  split; [exact Hbefore|]. split; [exact Hafter|].
  destruct (proj1 (read_transport_cause 1 Scenario.done_abc 3 None
                     (fst Scenario.started) (snd Scenario.started)) Hafter)
    as [Hset|(i & _ & Hrep)]; [congruence|].
  now exists i.
Defined.

(** ** The firmware path *)

(** X17. The firmware path is never anything but the build output of the
    directory a [flash] was called in: in every state the object can be
    in, if a firmware path is set it is some working directory followed
    by ["/build/zephyr/zephyr.hex"], and so is the path every submission
    carries. *)
Theorem firmware_is_build_output (w : world) (s : session) (fw : string) :
  reachable any_remote w s -> firmware s = Some fw ->
  (exists cwd, fw = cwd +:+ "/build/zephyr/zephyr.hex")
  /\ forall data, post_firmware (submission data s) = Some fw.
Proof.
  intros Hreach Hfw. split; [|intros data; exact Hfw].
  revert fw Hfw.
  induction Hreach as [w o|w s cwd o Hs IH|w s o Hs IH|w s Hs IH
                       |w s fuel E n t Hs IH HP|w s fuel E data t Hs IH];
    intros fw.
  - unfold init. cbn. discriminate.
  - unfold flash. destruct (closed s); cbn [negb fst]; [|apply IH].
    cbn. rewrite (proj2 (proj2 (proj2 (proj2 (proj2
                   (_set_options_keeps o
                      (set_firmware (Some (cwd +:+ "/build/zephyr/zephyr.hex")) s))))))).
    cbn. intros [= <-]. now exists cwd.
  - unfold open_transport. destruct (closed s); cbn [negb fst]; [|apply IH].
    cbn. rewrite (proj2 (proj2 (proj2 (proj2 (proj2 (_set_options_keeps o s)))))).
    apply IH.
  - cbn. apply IH.
  - unfold read_transport. destruct (closed s); [apply IH|].
    destruct (task_id s); [|apply IH].
    destruct (read_loop_frame fuel E n (deadline t w) w s []) as (Hcfg & _).
    destruct Hcfg as (_ & _ & _ & _ & _ & _ & ->). apply IH.
  - destruct (unusable s) eqn:Hok.
    + unfold write_transport. rewrite Hok. apply IH.
    + rewrite (write_transport_loop _ _ _ _ _ _ Hok).
      assert (Hre : firmware (fst (reopen s)) = firmware s).
      { destruct (task_id s) as [tid|] eqn:Htid.
        - rewrite (reopen_some s tid Htid). apply reopened_fields.
        - now rewrite (reopen_none s Htid). }
      destruct (write_loop_session fuel E data (deadline t w) w (fst (reopen s)))
        as [[-> _]|(tid & -> & _)]; cbn [firmware set_task_id]; rewrite Hre; apply IH.
Qed.

Lemma firmware_is_build_output_witness :
  reachable any_remote (fst Scenario.started) (snd Scenario.started)
  /\ firmware (snd Scenario.started) = Some "/proj/build/zephyr/zephyr.hex"
  /\ exists cwd, "/proj/build/zephyr/zephyr.hex" = cwd +:+ "/build/zephyr/zephyr.hex".
Proof.
  assert (Hfw : firmware (snd Scenario.started) = Some "/proj/build/zephyr/zephyr.hex")
    by (vm_compute; reflexivity).
  split; [exact started_any_reachable|]. split; [exact Hfw|].
  exact (proj1 (firmware_is_build_output (fst Scenario.started) (snd Scenario.started)
                  "/proj/build/zephyr/zephyr.hex" started_any_reachable Hfw)).
Defined.

(** ** [read_transport]: the end of the stream, for the whole call *)




